(** * flipbot: the decode / admit / dispatch / aggregate pipeline

    A shallow embedding of [src/utils.ts] (the tile decoder) and of the
    state transitions of [src/App.tsx] (update-rate monitor, admission
    filter, chunked dispatch, metrics aggregation), with the properties
    of the specification stated against them.

    Conventions of the embedding:
    - a JavaScript string is a [string]: a sequence of code units below 256;
    - an integral JavaScript number is a [Z]; a number that may be [NaN]
      (a result of [parseInt]) is an [option Z] with [None] for [NaN];
    - a fractional number (a rate, a mean, a probability) is a [Q]: the
      exact quotient, where the code has it rounded to a double;
    - [Date.now()] and [Math.random()] are inputs of the transition that
      reads them;
    - a React state updater [setX(prev => f prev)] is the function [f]
      applied to the field of the state record. *)

From Stdlib Require Import ZArith QArith Qround Ascii String Lia.
From stdpp Require Import base option list gmap strings.

Local Open Scope Z_scope.

(** ** JavaScript primitives used by the sources *)

Module JS.

(** A completed call: a value, or a thrown [TypeError]. *)
Inductive completion (A : Type) : Type :=
| Return (a : A)
| Throw.
Arguments Return {A} a.
Arguments Throw {A}.

Definition clamp (len i : Z) : Z := Z.min (Z.max i 0) len.

(** [s.substring(a, b)]: both ends clamped to [0, length], swapped when
    out of order. *)
Definition substring (s : string) (a b : Z) : string :=
  let len := Z.of_nat (String.length s) in
  let a' := clamp len a in
  let b' := clamp len b in
  let from := Z.min a' b' in
  let to := Z.max a' b' in
  String.substring (Z.to_nat from) (Z.to_nat (to - from)) s.

(** [s.substring(a)] *)
Definition substring_from (s : string) (a : Z) : string :=
  substring s a (Z.of_nat (String.length s)).

(** [s.replace(/^0+/, '')] *)
Fixpoint strip_leading_zeros (s : string) : string :=
  match s with
  | String "0" s' => strip_leading_zeros s'
  | _ => s
  end.

(** White space skipped by [parseInt], among the code units below 256:
    TAB, LF, VT, FF, CR, SP, NBSP. *)
Definition is_whitespace (c : ascii) : bool :=
  let n := Z.of_nat (nat_of_ascii c) in
  ((9 <=? n) && (n <=? 13)) || (n =? 32) || (n =? 160).

Fixpoint skip_whitespace (s : string) : string :=
  match s with
  | String c s' => if is_whitespace c then skip_whitespace s' else s
  | EmptyString => s
  end.

Definition hex_digit (c : ascii) : option Z :=
  let n := Z.of_nat (nat_of_ascii c) in
  if (48 <=? n) && (n <=? 57) then Some (n - 48)
  else if (97 <=? n) && (n <=? 102) then Some (n - 87)
  else if (65 <=? n) && (n <=? 70) then Some (n - 55)
  else None.

(** The value of the longest prefix of hexadecimal digits; [None] when
    that prefix is empty. *)
Fixpoint hex_prefix (acc : option Z) (s : string) : option Z :=
  match s with
  | String c s' =>
      match hex_digit c with
      | Some d => hex_prefix (Some (16 * default 0 acc + d)) s'
      | None => acc
      end
  | EmptyString => acc
  end.

(** [parseInt(s, 16)]: white space, an optional sign, an optional [0x]
    or [0X], then hexadecimal digits; [NaN] (here [None]) when there is
    no digit.  Exact as long as the value fits a double's mantissa; the
    decoder passes at most two code units. *)
Definition parseInt16 (s : string) : option Z :=
  let s1 := skip_whitespace s in
  let '(sign, s2) :=
    match s1 with
    | String "-" r => (-1, r)
    | String "+" r => (1, r)
    | _ => (1, s1)
    end in
  let s3 :=
    match s2 with
    | String "0" (String "x" r) => r
    | String "0" (String "X" r) => r
    | _ => s2
    end in
  Z.mul sign <$> hex_prefix None s3.

Section Arrays.
Context {A : Type}.

(** [l.slice(a, b)]: a negative index counts from the end. *)
Definition slice (l : list A) (a b : Z) : list A :=
  let len := Z.of_nat (length l) in
  let k := if a <? 0 then Z.max (len + a) 0 else Z.min a len in
  let f := if b <? 0 then Z.max (len + b) 0 else Z.min b len in
  take (Z.to_nat (f - k)) (drop (Z.to_nat k) l).

(** [l.slice(a)] *)
Definition slice_from (l : list A) (a : Z) : list A :=
  slice l a (Z.of_nat (length l)).

(** [l.indexOf(x)] with [-1] for an absent element; [eqb] is [===]. *)
Fixpoint indexOf_from (eqb : A -> A -> bool) (l : list A) (x : A) (i : Z) : Z :=
  match l with
  | [] => -1
  | y :: l' => if eqb y x then i else indexOf_from eqb l' x (i + 1)
  end.
End Arrays.

End JS.

(** ** [src/utils.ts] *)

(** [enum Powerup { None, Multiplier }]: a numeric enum, its members are
    the numbers 0 and 1. *)
Module Powerup.
Definition None : Z := 0.
Definition Multiplier : Z := 1.
End Powerup.

Record Tile : Type := mkTile {
  x : Z;
  y : Z;
  address : string;
  powerup : option Z;
  powerupValue : option Z;
  team : option Z
}.

(** The part of the [Record<string, Ty>] that [parseTileModel] reads:
    [model_flipped] is [model.flipped] (absent: [None]) with its [value];
    [model_x] and [model_y] are [model.x?.value] and [model.y?.value]
    ([None] when they are [undefined] or [null]). *)
Record Model : Type := mkModel {
  model_flipped : option string;
  model_x : option Z;
  model_y : option Z
}.

Definition maskAddress (address : string) : string :=
  let trimmed := JS.strip_leading_zeros (JS.substring_from address 2) in
  "0x" +:+ JS.substring trimmed 0 (Z.of_nat (String.length trimmed) - 4).

Section Decoder.

(** [TILE_HASHES] of [./constants]: the ordered table of keys. *)
Variable TILE_HASHES : list string.

(** [TILE_HASHES.indexOf(hashedKeys as string)]; an [undefined] key is
    no element of a table of strings. *)
Definition tileIndex (hashedKeys : option string) : Z :=
  match hashedKeys with
  | Some k => JS.indexOf_from String.eqb TILE_HASHES k 0
  | None => -1
  end.

Definition parseTileModel (model : Model) (hashedKeys : option string)
  : JS.completion Tile :=
  match model_flipped model with
  | None => JS.Throw
  | Some packedFlipped =>
      let len := Z.of_nat (String.length packedFlipped) in
      let address :=
        if negb (String.eqb packedFlipped "0x0") then maskAddress packedFlipped
        else "0x0"%string in
      let powerup :=
        if negb (String.eqb address "0x0")
        then JS.parseInt16 (JS.substring packedFlipped (len - 4) (len - 3))
        else Some Powerup.None in
      let powerupValue :=
        if negb (String.eqb address "0x0")
        then JS.parseInt16 (JS.substring packedFlipped (len - 3) (len - 1))
        else Some 0 in
      let team :=
        if negb (String.eqb address "0x0")
        then JS.parseInt16 (JS.substring packedFlipped (len - 1) len)
        else Some 0 in
      let x := default (tileIndex hashedKeys / 256) (model_x model) in
      let y := default (Z.rem (tileIndex hashedKeys) 256) (model_y model) in
      JS.Return (mkTile x y address powerup powerupValue team)
  end.

End Decoder.

(** ** [src/App.tsx]: state *)

(** [a < b] on numbers. *)
Definition Qlt_bool (a b : Q) : bool := negb (Qle_bool b a).

(** [{ x, y }] *)
Record Pos : Type := mkPos { pos_x : Z; pos_y : Z }.

(** An entry of [flipHistory]; [powerup?] and [powerupValue?] are
    optional properties holding numbers. *)
Record FlipRecord : Type := mkFlipRecord {
  timestamp : Z;
  success : bool;
  flip_powerup : option (option Z);
  flip_powerupValue : option (option Z)
}.

Record PowerupStats : Type := mkPowerupStats {
  count : Z;
  values : list (option Z)
}.

(** [interface FlipMetrics]; [powerups] is an object indexed by the
    number of the powerup kind. *)
Record FlipMetrics : Type := mkFlipMetrics {
  totalFlips : Z;
  successfulFlips : Z;
  failedFlips : Z;
  averageResponseTime : Q;
  powerups : gmap (option Z) PowerupStats;
  flipHistory : list FlipRecord
}.

Record TxLog : Type := mkTxLog { hash : string; tx_timestamp : Z }.

Record TilePositions : Type := mkTilePositions {
  pending : list Pos;
  flipped : list Pos
}.

(** The [useState] cells that the pipeline writes. *)
Record AppState : Type := mkAppState {
  pendingFlips : list Pos;
  txLogs : list TxLog;
  metrics : FlipMetrics;
  tilePositions : TilePositions;
  entityUpdateRate : list Q;
  lastUpdateTimestamp : Z
}.

Definition initialMetrics : FlipMetrics :=
  mkFlipMetrics 0 0 0 0%Q
    (<[Some Powerup.None := mkPowerupStats 0 []]>
       (<[Some Powerup.Multiplier := mkPowerupStats 0 []]> ∅))
    [].

(** The initial values of the cells; [now] is the [Date.now()] of the
    first render. *)
Definition initialState (now : Z) : AppState :=
  mkAppState [] [] initialMetrics (mkTilePositions [] []) [] now.

Definition setPendingFlips (f : list Pos -> list Pos) (st : AppState) : AppState :=
  mkAppState (f (pendingFlips st)) (txLogs st) (metrics st) (tilePositions st)
    (entityUpdateRate st) (lastUpdateTimestamp st).

Definition setTxLogs (f : list TxLog -> list TxLog) (st : AppState) : AppState :=
  mkAppState (pendingFlips st) (f (txLogs st)) (metrics st) (tilePositions st)
    (entityUpdateRate st) (lastUpdateTimestamp st).

Definition setMetrics (f : FlipMetrics -> FlipMetrics) (st : AppState) : AppState :=
  mkAppState (pendingFlips st) (txLogs st) (f (metrics st)) (tilePositions st)
    (entityUpdateRate st) (lastUpdateTimestamp st).

Definition setTilePositions (f : TilePositions -> TilePositions) (st : AppState) : AppState :=
  mkAppState (pendingFlips st) (txLogs st) (metrics st) (f (tilePositions st))
    (entityUpdateRate st) (lastUpdateTimestamp st).

Definition setEntityUpdateRate (f : list Q -> list Q) (st : AppState) : AppState :=
  mkAppState (pendingFlips st) (txLogs st) (metrics st) (tilePositions st)
    (f (entityUpdateRate st)) (lastUpdateTimestamp st).

Definition setLastUpdateTimestamp (now : Z) (st : AppState) : AppState :=
  mkAppState (pendingFlips st) (txLogs st) (metrics st) (tilePositions st)
    (entityUpdateRate st) now.

(** ** [src/App.tsx]: transitions *)

(** What [account.execute] settles to: a transaction, or a rejection. *)
Inductive ExecResult : Type :=
| TxOk (transaction_hash : string)
| TxError.

(** The readings of [Date.now()] during one call of [executeFlips]:
    at its start, for the transaction log, for the [i]-th history record,
    and in the running mean. *)
Record ExecClock : Type := mkExecClock {
  startTime : Z;
  logTime : Z;
  recordTime : nat -> Z;
  endTime : Z
}.

(** What one call of the feed's callback receives and reads:
    [entity[TILE_MODEL_TAG]], the two readings of [Date.now()] and the
    draw of [Math.random()]. *)
Record EntityEvent : Type := mkEntityEvent {
  hashedKeys : string;
  tileModel : option Model;
  arrivalTime : Z;
  recordedTime : Z;
  random : Q
}.

(** [flips.map(() => r (Date.now()))] *)
Definition mapRecords (r : Z -> FlipRecord) (clock : nat -> Z) (flips : list Pos)
  : list FlipRecord :=
  imap (fun i _ => r (clock i)) flips.

Definition successRecord (now : Z) : FlipRecord :=
  mkFlipRecord now true (Some (Some Powerup.None)) (Some (Some 0)).

Definition failureRecord (now : Z) : FlipRecord :=
  mkFlipRecord now false None None.

Definition samePos (f p : Pos) : bool :=
  (pos_x f =? pos_x p) && (pos_y f =? pos_y p).

(** The body of the [setInterval] callback of the update-rate effect. *)
Definition rateTick (now : Z) (st : AppState) : AppState :=
  let timeDiff := now - lastUpdateTimestamp st in
  let st :=
    if 0 <? timeDiff
    then setEntityUpdateRate
           (fun prev => JS.slice_from prev (-29) ++ [(inject_Z 1000 / inject_Z timeDiff)%Q]) st
    else st in
  setLastUpdateTimestamp now st.

Section Pipeline.

Variable TILE_HASHES : list string.

(** The closure of [handleEntityUpdated] and [executeFlips] holds the
    [account] of the render that created it ([None]: not connected,
    [Some a]: [account.address] is [a]); that of [handleEntityUpdated]
    holds [sampleFactor] too. *)
Variable account : option string.

(** The updater of [setMetrics] for a tile carrying the local address. *)
Definition recordOwnFlip (tile : Tile) (now : Z) (prev : FlipMetrics) : FlipMetrics :=
  let kind := powerup tile in
  let powerups' :=
    if bool_decide (kind ≠ Some Powerup.None)
    then <[kind := mkPowerupStats
                     (default 0 (count <$> powerups prev !! kind) + 1)
                     (default [] (values <$> powerups prev !! kind) ++ [powerupValue tile])]>
           (powerups prev)
    else powerups prev in
  mkFlipMetrics (totalFlips prev) (successfulFlips prev) (failedFlips prev)
    (averageResponseTime prev) powerups'
    (JS.slice_from
       (flipHistory prev ++ [mkFlipRecord now true (Some kind) (Some (powerupValue tile))])
       (-100)).

Definition admitCandidate (tile : Tile) (st : AppState) : AppState :=
  setTilePositions
    (fun prev => mkTilePositions (pending prev ++ [mkPos (x tile) (y tile)]) (flipped prev))
    (setPendingFlips (fun prev => prev ++ [mkPos (x tile) (y tile)]) st).

Definition handleEntityUpdated (sampleFactor : Q) (ev : EntityEvent) (st : AppState)
  : AppState :=
  let st := setLastUpdateTimestamp (arrivalTime ev) st in
  match tileModel ev with
  | None => st
  | Some model =>
      match parseTileModel TILE_HASHES model (Some (hashedKeys ev)) with
      | JS.Throw => st
      | JS.Return tile =>
          let st :=
            if bool_decide (Some (address tile) = account)
            then setMetrics (recordOwnFlip tile (recordedTime ev)) st
            else st in
          if String.eqb (address tile) "0x0"
          then if Qlt_bool (random ev) sampleFactor then admitCandidate tile st else st
          else st
      end
  end.

(** The updater of [setMetrics] after a transaction went through.  The
    new [averageResponseTime] is the exact quotient; the code rounds the
    product, the sum and the quotient to doubles, so its value is that of
    the embedding only where this arithmetic is exact. *)
Definition recordSuccess (flips : list Pos) (clk : ExecClock) (prev : FlipMetrics)
  : FlipMetrics :=
  let n := Z.of_nat (length flips) in
  let newHistory :=
    JS.slice_from (flipHistory prev ++ mapRecords successRecord (recordTime clk) flips) (-100) in
  mkFlipMetrics
    (totalFlips prev + n)
    (successfulFlips prev + n)
    (failedFlips prev)
    ((averageResponseTime prev * inject_Z (totalFlips prev)
      + inject_Z (endTime clk - startTime clk)) / inject_Z (totalFlips prev + n))%Q
    (powerups prev)
    newHistory.

(** The updater of [setMetrics] in the [catch] block. *)
Definition recordFailure (flips : list Pos) (clk : ExecClock) (prev : FlipMetrics)
  : FlipMetrics :=
  let n := Z.of_nat (length flips) in
  mkFlipMetrics
    (totalFlips prev + n)
    (successfulFlips prev)
    (failedFlips prev + n)
    (averageResponseTime prev)
    (powerups prev)
    (JS.slice_from (flipHistory prev ++ mapRecords failureRecord (recordTime clk) flips) (-100)).

Definition markFlipped (flips : list Pos) (prev : TilePositions) : TilePositions :=
  mkTilePositions
    (filter (fun p => negb (existsb (fun f => samePos f p) flips)) (pending prev))
    (flipped prev ++ flips).

(** [executeFlips]; the call data sent to the contract (coordinates
    and a random team in hexadecimal) do not bear on the state. *)
Definition executeFlips (flips : list Pos) (res : ExecResult) (clk : ExecClock)
    (st : AppState) : AppState :=
  if bool_decide (account = None) || (Z.of_nat (length flips) =? 0) then st
  else
    match res with
    | TxOk tx_hash =>
        setTilePositions (markFlipped flips)
          (setMetrics (recordSuccess flips clk)
             (setTxLogs (fun prev => JS.slice_from (prev ++ [mkTxLog tx_hash (logTime clk)]) (-10))
                st))
    | TxError => setMetrics (recordFailure flips clk) st
    end.

End Pipeline.

(** The loop of the drain effect,
    [for (let i = 0; i < pendingFlips.length; i += chunkSize)
       chunks.push(pendingFlips.slice(i, i + chunkSize))],
    entered at index [i] with [chunks] so far; [None] when [fuel]
    iterations do not reach its end. *)
Fixpoint chunkLoop (fuel : nat) (chunkSize : Z) (pendingFlips : list Pos)
    (i : Z) (chunks : list (list Pos)) : option (list (list Pos)) :=
  match fuel with
  | O => None
  | S fuel' =>
      if i <? Z.of_nat (length pendingFlips)
      then chunkLoop fuel' chunkSize pendingFlips (i + chunkSize)
             (chunks ++ [JS.slice pendingFlips i (i + chunkSize)])
      else Some chunks
  end.

(** A call [setTimeout(() => executeFlips(chunk), delay)]. *)
Record Dispatch : Type := mkDispatch { delay : Z; chunk : list Pos }.

(** [chunks.forEach((chunk, index) => setTimeout(..., index * executionDelay))] *)
Definition schedule (executionDelay : Z) (chunks : list (list Pos)) : list Dispatch :=
  imap (fun index chunk => mkDispatch (Z.of_nat index * executionDelay) chunk) chunks.

(** The drain effect with its zero-delay timer fired: the calls it
    schedules, in the order of [forEach], and the state it leaves.
    [chunkSize] and [executionDelay] are dependencies of the effect, so
    it reads their current values. *)
Definition drainPending (fuel : nat) (chunkSize executionDelay : Z) (st : AppState)
  : option (list Dispatch * AppState) :=
  if Z.of_nat (length (pendingFlips st)) =? 0 then Some ([], st)
  else
    chunks ← chunkLoop fuel chunkSize (pendingFlips st) 0 [];
    Some (schedule executionDelay chunks, setPendingFlips (fun _ => []) st).

(** The [n] entries of [l] that were added last, in the order of [l]. *)
Definition mostRecent {A : Type} (n : nat) (l : list A) : list A :=
  drop (length l - n) l.

(** ** Runs of the pipeline *)

Section Runs.

Variable TILE_HASHES : list string.

(** The feed delivering [evs] in order. *)
Definition feed (account : option string) (sampleFactor : Q)
    (evs : list EntityEvent) (st : AppState) : AppState :=
  foldl (fun st ev => handleEntityUpdated TILE_HASHES account sampleFactor ev st) st evs.

(** The coordinates of the events of [evs] that decode to an unowned tile. *)
Definition unownedPositions (evs : list EntityEvent) : list Pos :=
  omap (fun ev =>
          match tileModel ev with
          | Some model =>
              match parseTileModel TILE_HASHES model (Some (hashedKeys ev)) with
              | JS.Return tile =>
                  if String.eqb (address tile) "0x0"
                  then Some (mkPos (x tile) (y tile)) else None
              | JS.Throw => None
              end
          | None => None
          end) evs.

(** The history record that an event of the feed gives rise to. *)
Definition ownRecords (account : option string) (ev : EntityEvent) : list FlipRecord :=
  match tileModel ev with
  | Some model =>
      match parseTileModel TILE_HASHES model (Some (hashedKeys ev)) with
      | JS.Return tile =>
          if bool_decide (Some (address tile) = account)
          then [mkFlipRecord (recordedTime ev) true
                  (Some (powerup tile)) (Some (powerupValue tile))]
          else []
      | JS.Throw => []
      end
  | None => []
  end.

(** The history records that one chunk gives rise to. *)
Definition chunkRecords (account : option string) (flips : list Pos)
    (res : ExecResult) (clk : ExecClock) : list FlipRecord :=
  match account, res with
  | None, _ => []
  | Some _, TxOk _ => mapRecords successRecord (recordTime clk) flips
  | Some _, TxError => mapRecords failureRecord (recordTime clk) flips
  end.

(** One transition of the application, labelled with the records it
    submits to the flip history. *)
Inductive step (st : AppState) : list FlipRecord -> AppState -> Prop :=
| step_entity account sampleFactor ev :
    step st (ownRecords account ev)
      (handleEntityUpdated TILE_HASHES account sampleFactor ev st)
| step_execute account flips res clk :
    step st (chunkRecords account flips res clk)
      (executeFlips account flips res clk st)
| step_tick now :
    step st [] (rateTick now st)
| step_drain fuel chunkSize executionDelay calls st' :
    drainPending fuel chunkSize executionDelay st = Some (calls, st') ->
    step st [] st'.

Inductive run (st : AppState) : list FlipRecord -> AppState -> Prop :=
| run_done : run st [] st
| run_more log1 st1 log2 st2 :
    run st log1 st1 -> step st1 log2 st2 -> run st (log1 ++ log2) st2.

End Runs.

(** ** [src/App.tsx]: the call data and the graphs *)

Module Calldata.

Definition hexChar (d : Z) : ascii :=
  if d <? 10 then ascii_of_nat (Z.to_nat (48 + d)) else ascii_of_nat (Z.to_nat (87 + d)).

(** The hexadecimal digits of [n >= 0] in front of [acc], least
    significant digit first, within [fuel] digits. *)
Fixpoint hexDigits (fuel : nat) (n : Z) (acc : string) : string :=
  match fuel with
  | O => acc
  | S fuel' =>
      let acc' := String (hexChar (n mod 16)) acc in
      if n <? 16 then acc' else hexDigits fuel' (n / 16) acc'
  end.

(** [n.toString(16)] for an integer [n]: lower-case digits, no leading
    zero, a minus sign in front of a negative number. *)
Definition toString16 (n : Z) : string :=
  if n <? 0
  then "-" +:+ hexDigits (S (Z.to_nat (Z.log2 (- n)))) (- n) ""
  else hexDigits (S (Z.to_nat (Z.log2 n))) n "".

(** An element of the array passed to [account.execute]. *)
Record Call : Type := mkCall {
  contractAddress : string;
  entrypoint : string;
  calldata : list string
}.

Section Calls.

(** [ACTIONS_ADDRESS] of [./constants]. *)
Variable ACTIONS_ADDRESS : string.

(** [flips.map(flip => ({ contractAddress, entrypoint: 'flip',
    calldata: [hex x, hex y, hex (Math.floor(Math.random() * 6))] }))];
    [draw i] is the reading of [Math.random()] for the [i]-th flip. *)
Definition flipCalls (draw : nat -> Q) (flips : list Pos) : list Call :=
  imap (fun i flip =>
          mkCall ACTIONS_ADDRESS "flip"
            [ "0x" +:+ toString16 (pos_x flip);
              "0x" +:+ toString16 (pos_y flip);
              "0x" +:+ toString16 (Qfloor (draw i * 6)) ])
       flips.

End Calls.

End Calldata.

(** [FlipHistoryGraph]: the [reduce] over [metrics.flipHistory] that
    gives, for every index from 10 on, the share of successes among the
    ten records that end at that index. *)
Definition successRate (history : list FlipRecord) : list Q :=
  foldl (fun acc idx =>
           if Z.of_nat idx <? 10 then acc
           else
             let window := JS.slice history (Z.of_nat idx - 9) (Z.of_nat idx + 1) in
             let rate :=
               (inject_Z (Z.of_nat (length (filter (fun f => success f = true) window)))
                / inject_Z 10)%Q in
             acc ++ [rate])
        [] (seq 0 (length history)).

(** [PowerupHistoryGraph]: the records with a powerup other than
    [Powerup.None], the last 30 of them. *)
Definition powerupHistory (history : list FlipRecord) : list FlipRecord :=
  JS.slice_from
    (filter (fun flip => flip_powerup flip <> None /\
                         flip_powerup flip <> Some (Some Powerup.None)) history)
    (-30).

(** Equality of coordinates is decidable. *)
#[global] Instance Pos_eq_dec : EqDecision Pos.
Proof. solve_decision. Defined.

(** ** [src/App.tsx]: the subscription and the sample-factor control *)

(** The application with the cells that the subscription effect deals
    with: [accountCell] is [account?.address] of the current render,
    [sampleFactorCell] is the [sampleFactor] cell that the slider sets,
    and [subscribed] is the handler registered with
    [client.onEntityUpdated] while the bot runs: the
    [handleEntityUpdated] of the render in which the effect ran, with
    the [account] and the [sampleFactor] of that render. *)
Record Bot : Type := mkBot {
  appState : AppState;
  accountCell : option string;
  sampleFactorCell : Q;
  subscribed : option (option string * Q)
}.

(** The first render: [useState<number>(1)] for the sample factor, the
    bot not running. *)
Definition initialBot (now : Z) (account : option string) : Bot :=
  mkBot (initialState now) account 1%Q None.

(** The slider's [onChange]: [setSampleFactor(Number(e.target.value))].
    The subscription effect depends on [client] and [isBotRunning]
    only, so it does not run again. *)
Definition setSampleFactor (value : Q) (bot : Bot) : Bot :=
  mkBot (appState bot) (accountCell bot) value (subscribed bot).

(** [setIsBotRunning(true)] with a client: the effect subscribes the
    handler of the current render. *)
Definition startBot (bot : Bot) : Bot :=
  mkBot (appState bot) (accountCell bot) (sampleFactorCell bot)
    (Some (accountCell bot, sampleFactorCell bot)).

(** [setIsBotRunning(false)]: the clean-up of the effect cancels the
    subscription. *)
Definition stopBot (bot : Bot) : Bot :=
  mkBot (appState bot) (accountCell bot) (sampleFactorCell bot) None.

Section Subscription.

Variable TILE_HASHES : list string.

(** The feed calling the subscribed handler, if there is one. *)
Definition onEntityUpdated (ev : EntityEvent) (bot : Bot) : Bot :=
  match subscribed bot with
  | Some (account, sampleFactor) =>
      mkBot (handleEntityUpdated TILE_HASHES account sampleFactor ev (appState bot))
        (accountCell bot) (sampleFactorCell bot) (subscribed bot)
  | None => bot
  end.

End Subscription.

(** ** Sample inputs *)

(** [n] coordinates on the diagonal. *)
Definition sampleFlips (n : nat) : list Pos :=
  (fun i => mkPos (Z.of_nat i) (Z.of_nat i)) <$> seq 0 n.

(** A call that starts at [start] and whose answer, and every later
    reading of the clock, comes [elapsed] ms later. *)
Definition sampleClock (start elapsed : Z) : ExecClock :=
  mkExecClock start (start + elapsed) (fun _ => start + elapsed) (start + elapsed).

(** Three events: an unowned tile, a tile of somebody else, and an
    entity without a tile model. *)
Definition sampleFeed : list EntityEvent :=
  [ mkEntityEvent "0xaa" (Some (mkModel (Some "0x0"%string) (Some 1) (Some 2))) 10 11 (1 # 2)%Q;
    mkEntityEvent "0xbb" (Some (mkModel (Some "0x1a2b3"%string) (Some 3) (Some 4))) 20 21 0%Q;
    mkEntityEvent "0xcc" None 30 31 (9 # 10)%Q ].

(** Six chunks of 20 coordinates, answered in turn by a transaction and
    by a rejection. *)
Definition sampleChunks : list (list Pos * ExecResult * ExecClock) :=
  (fun i : nat =>
     (sampleFlips 20,
      if Nat.even i then TxOk "0xabc" else TxError,
      sampleClock (1000 * Z.of_nat i) 120)) <$> seq 0 6.

(** The chunks of [chunks] dispatched one after the other. *)
Definition executeAll (account : option string)
    (chunks : list (list Pos * ExecResult * ExecClock)) (st : AppState) : AppState :=
  foldl (fun st c => executeFlips account (fst (fst c)) (snd (fst c)) (snd c) st) st chunks.

(** The history records that they give rise to, in that order. *)
Definition chunkLog (account : option string)
    (chunks : list (list Pos * ExecResult * ExecClock)) : list FlipRecord :=
  concat ((fun c => chunkRecords account (fst (fst c)) (snd (fst c)) (snd c)) <$> chunks).

(** A tile of the account ["0x1"]: kind 1, value 0x2b, team 3. *)
Definition sampleOwnEvent : EntityEvent :=
  mkEntityEvent "0xaa" (Some (mkModel (Some "0x112b3"%string) (Some 1) (Some 2))) 10 11 0%Q.

(** Three unowned tiles with explicit coordinates on the diagonal. *)
Definition sampleUnownedFeed : list EntityEvent :=
  (fun i : Z => mkEntityEvent "0xaa" (Some (mkModel (Some "0x0"%string) (Some i) (Some i)))
                  10 11 0%Q) <$> [0; 1; 2].

(** * Properties *)

(** ** The decoder *)

Example parse_1a2b3 :
  parseTileModel [] (mkModel (Some "0x1a2b3"%string) (Some 3) (Some 4)) None
  = JS.Return (mkTile 3 4 "0x1" (Some 10) (Some 43) (Some 3)).
Proof. vm_compute. reflexivity. Qed.

Example parse_short :
  parseTileModel [] (mkModel (Some "0x1"%string) (Some 3) (Some 4)) None
  = JS.Return (mkTile 3 4 "0x" None None (Some 1)).
Proof. vm_compute. reflexivity. Qed.

Lemma strip_leading_zeros_head (s : string) :
  match JS.strip_leading_zeros s with
  | String c _ => c <> "0"%char
  | EmptyString => True
  end.
Proof.
  induction s as [|c s IH]; simpl; [exact I|].
  destruct (Ascii.ascii_dec c "0") as [->|Hc]; [exact IH|].
  replace (match c with
           | "0"%char => JS.strip_leading_zeros s
           | _ => String c s
           end) with (String c s); [exact Hc|].
  destruct c as [[] [] [] [] [] [] [] []]; try reflexivity.
  contradiction Hc; reflexivity.
Qed.

Lemma substring_prefix (s : string) (b : Z) :
  exists m : nat, JS.substring s 0 b = String.substring 0 m s.
Proof.
  unfold JS.substring, JS.clamp.
  set (len := Z.of_nat (String.length s)).
  assert (0 <= len) by (subst len; lia).
  exists (Z.to_nat (Z.min (Z.max b 0) len)).
  f_equal; lia.
Qed.

Lemma prefix_head (m : nat) (s : string) :
  match String.substring 0 m s with
  | String c _ => exists s', s = String c s'
  | EmptyString => True
  end.
Proof.
  destruct m, s; simpl; eauto.
Qed.

(** No packed value is masked to the sentinel: an unowned tile comes from
    the literal ["0x0"] only. *)
Lemma maskAddress_not_sentinel (packed : string) :
  maskAddress packed <> "0x0"%string.
Proof.
  unfold maskAddress.
  set (trimmed := JS.strip_leading_zeros _).
  destruct (substring_prefix trimmed (Z.of_nat (String.length trimmed) - 4)) as [m ->].
  pose proof (prefix_head m trimmed) as Hp.
  pose proof (strip_leading_zeros_head (JS.substring_from packed 2)) as Hs.
  fold trimmed in Hs.
  destruct (String.substring 0 m trimmed) as [|c r] eqn:E; simpl; [discriminate|].
  destruct Hp as [s' Hp]. rewrite Hp in Hs.
  intros [= -> _]. contradiction Hs; reflexivity.
Qed.

Lemma parseTileModel_address (TILE_HASHES : list string) (model : Model)
    (key : option string) (tile : Tile) :
  parseTileModel TILE_HASHES model key = JS.Return tile ->
  (address tile = "0x0"%string <-> model_flipped model = Some "0x0"%string).
Proof.
  unfold parseTileModel. destruct (model_flipped model) as [packed|]; [|discriminate].
  intros [= <-]; simpl.
  destruct (String.eqb_spec packed "0x0") as [->|Hne]; simpl; [tauto|].
  split; [intros E; contradiction (maskAddress_not_sentinel packed)|congruence].
Qed.

Lemma indexOf_from_spec (l : list string) (key : string) (i : Z) :
  ((key ∉ l) /\ JS.indexOf_from String.eqb l key i = -1) \/
  (exists n : nat,
      l !! n = Some key /\
      (forall j : nat, (j < n)%nat -> l !! j <> Some key) /\
      JS.indexOf_from String.eqb l key i = i + Z.of_nat n).
Proof.
  revert i. induction l as [|k l IH]; intros i; simpl.
  - left. split; [apply not_elem_of_nil|reflexivity].
  - destruct (String.eqb_spec k key) as [->|Hne].
    + right. exists 0%nat. split; [reflexivity|]. split; [lia|]. lia.
    + destruct (IH (i + 1)) as [[Hnot E]|(n & Hn & Hfirst & E)].
      * left. split; [|exact E].
        rewrite not_elem_of_cons. split; congruence.
      * right. exists (S n). split; [exact Hn|]. split; [|lia].
        intros [|j] Hj; simpl; [congruence|]. apply Hfirst. lia.
Qed.

(** The decoder on a packed value other than the sentinel. *)
Lemma parseTileModel_owned (TILE_HASHES : list string) (packed : string)
    (mx my : option Z) (key : option string) :
  packed <> "0x0"%string ->
  parseTileModel TILE_HASHES (mkModel (Some packed) mx my) key
  = JS.Return
      (mkTile (default (tileIndex TILE_HASHES key / 256) mx)
              (default (Z.rem (tileIndex TILE_HASHES key) 256) my)
              (maskAddress packed)
              (JS.parseInt16
                 (JS.substring packed (Z.of_nat (String.length packed) - 4)
                                      (Z.of_nat (String.length packed) - 3)))
              (JS.parseInt16
                 (JS.substring packed (Z.of_nat (String.length packed) - 3)
                                      (Z.of_nat (String.length packed) - 1)))
              (JS.parseInt16
                 (JS.substring packed (Z.of_nat (String.length packed) - 1)
                                      (Z.of_nat (String.length packed))))).
Proof.
  intros Hne. unfold parseTileModel. cbn [model_flipped model_x model_y].
  apply String.eqb_neq in Hne. rewrite Hne. cbn [negb].
  pose proof (maskAddress_not_sentinel packed) as Hm.
  apply String.eqb_neq in Hm. rewrite Hm. reflexivity.
Qed.

(** C2 (as the code has it): a packed value other than the sentinel whose
    kind nibble, the code unit at offset [length - 4], parses to an
    integer [k] outside the range of the enum is decoded without an
    error, and the tile carries [k] itself as its powerup kind. *)
Theorem decode_keeps_out_of_range_kind
    (TILE_HASHES : list string) (packed : string) (mx my : option Z)
    (key : option string) (k : Z) :
  packed <> "0x0"%string ->
  JS.parseInt16
    (JS.substring packed (Z.of_nat (String.length packed) - 4)
                         (Z.of_nat (String.length packed) - 3)) = Some k ->
  k < Powerup.None \/ Powerup.Multiplier < k ->
  exists tile,
    parseTileModel TILE_HASHES (mkModel (Some packed) mx my) key = JS.Return tile /\
    powerup tile = Some k.
Proof.
  intros Hne Hk _. rewrite (parseTileModel_owned _ _ _ _ _ Hne).
  eexists. split; [reflexivity|]. exact Hk.
Qed.

Lemma decode_keeps_out_of_range_kind_witness :
  exists tile,
    parseTileModel [] (mkModel (Some "0x1a2b3"%string) None None) None = JS.Return tile /\
    powerup tile = Some 10.
Proof.
  apply (decode_keeps_out_of_range_kind [] "0x1a2b3" None None None 10).
  - discriminate.
  - vm_compute. reflexivity.
  - right. unfold Powerup.Multiplier. lia.
Defined.

(** C2 fails as stated: ["0x1a2b3"] is decoded to a tile of kind 10, not
    to an error. *)
Lemma decode_1a2b3_is_no_error :
  ~ (parseTileModel [] (mkModel (Some "0x1a2b3"%string) None None) None = JS.Throw) /\
  parseTileModel [] (mkModel (Some "0x1a2b3"%string) None None) None
  = JS.Return (mkTile (-1) (-1) "0x1" (Some 10) (Some 43) (Some 3)).
Proof. split; [discriminate|vm_compute; reflexivity]. Qed.

(** C3 (as the code has it): an event without explicit [x] and [y] is
    decoded without an error whatever its key; a key that is not in the
    table gives the coordinates (-1, -1), and a key whose first position
    in the table is [i] gives ([floor (i / 256)], [i mod 256]). *)
Theorem decode_coordinates_from_key
    (TILE_HASHES : list string) (model : Model) (packed key : string) :
  model_flipped model = Some packed ->
  model_x model = None ->
  model_y model = None ->
  exists tile,
    parseTileModel TILE_HASHES model (Some key) = JS.Return tile /\
    (((key ∉ TILE_HASHES) /\ x tile = -1 /\ y tile = -1) \/
     (exists i : nat,
         TILE_HASHES !! i = Some key /\
         (forall j : nat, (j < i)%nat -> TILE_HASHES !! j <> Some key) /\
         x tile = Z.of_nat i / 256 /\
         y tile = Z.of_nat i mod 256)).
Proof.
  intros Hf Hx Hy. unfold parseTileModel. rewrite Hf, Hx, Hy.
  eexists. split; [reflexivity|]. simpl.
  destruct (indexOf_from_spec TILE_HASHES key 0) as [[Hnot ->]|(n & Hn & Hfirst & ->)].
  - left. split; [exact Hnot|]. split; reflexivity.
  - right. exists n. split; [exact Hn|]. split; [exact Hfirst|].
    rewrite Z.add_0_l. split; [reflexivity|].
    apply Z.rem_mod_nonneg; lia.
Qed.

Lemma decode_coordinates_from_key_witness :
  exists tile,
    parseTileModel ["0xaa"; "0xbb"]%string (mkModel (Some "0x0"%string) None None)
      (Some "0xbb"%string) = JS.Return tile /\
    ((("0xbb"%string ∉ ["0xaa"; "0xbb"]%string) /\ x tile = -1 /\ y tile = -1) \/
     (exists i : nat,
         ["0xaa"; "0xbb"]%string !! i = Some "0xbb"%string /\
         (forall j : nat, (j < i)%nat -> ["0xaa"; "0xbb"]%string !! j <> Some "0xbb"%string) /\
         x tile = Z.of_nat i / 256 /\
         y tile = Z.of_nat i mod 256)).
Proof.
  apply (decode_coordinates_from_key ["0xaa"; "0xbb"]%string
           (mkModel (Some "0x0"%string) None None) "0x0" "0xbb"); reflexivity.
Defined.

(** C3 fails as stated: a key that the table does not hold is decoded to
    the coordinates (-1, -1), not to an error. *)
Lemma decode_unknown_key_is_no_error :
  ("0xcc"%string ∉ ["0xaa"; "0xbb"]%string) /\
  parseTileModel ["0xaa"; "0xbb"]%string (mkModel (Some "0x0"%string) None None)
    (Some "0xcc"%string)
  = JS.Return (mkTile (-1) (-1) "0x0" (Some 0) (Some 0) (Some 0)).
Proof.
  split; [|vm_compute; reflexivity].
  rewrite !not_elem_of_cons. repeat split; try discriminate. apply not_elem_of_nil.
Qed.

(** C4 (as the code has it): the packed value ["0x0"], the one spelling
    of zero that the decoder takes for the sentinel, is decoded to the
    owner ["0x0"], the kind [None], the value 0 and the team 0. *)
Theorem decode_sentinel
    (TILE_HASHES : list string) (mx my : option Z) (key : option string) :
  exists tile,
    parseTileModel TILE_HASHES (mkModel (Some "0x0"%string) mx my) key = JS.Return tile /\
    address tile = "0x0"%string /\
    powerup tile = Some Powerup.None /\
    powerupValue tile = Some 0 /\
    team tile = Some 0.
Proof.
  unfold parseTileModel; simpl. eexists. split; [reflexivity|]. simpl. auto.
Qed.

(** C4 fails as stated: ["0x00"] denotes zero too, and is decoded to the
    owner ["0x"] with a powerup value that is not a number. *)
Lemma decode_0x00_is_not_sentinel :
  parseTileModel [] (mkModel (Some "0x00"%string) (Some 0) (Some 0)) None
  = JS.Return (mkTile 0 0 "0x" (Some 0) None (Some 0)).
Proof. vm_compute. reflexivity. Qed.

(** ** Bounded rings *)

Section Rings.
Context {A : Type}.
Implicit Types l : list A.

Lemma slice_from_negative l (n : nat) :
  (0 < n)%nat -> JS.slice_from l (- Z.of_nat n) = mostRecent n l.
Proof.
  intros Hn. unfold JS.slice_from, JS.slice, mostRecent.
  destruct (Z.ltb_spec (- Z.of_nat n) 0) as [_|?]; [|lia].
  destruct (Z.ltb_spec (Z.of_nat (length l)) 0) as [?|_]; [lia|].
  replace (Z.to_nat (Z.max (Z.of_nat (length l) + - Z.of_nat n) 0))
    with (length l - n)%nat by lia.
  apply take_ge. rewrite length_drop. lia.
Qed.

Lemma mostRecent_length n l : (length (mostRecent n l) <= n)%nat.
Proof. unfold mostRecent. rewrite length_drop. lia. Qed.

Lemma mostRecent_short n l : (length l <= n)%nat -> mostRecent n l = l.
Proof.
  intros H. unfold mostRecent.
  replace (length l - n)%nat with 0%nat by lia. reflexivity.
Qed.

(** Truncating at every append is truncating once at the end. *)
Lemma mostRecent_app_mostRecent n l1 l2 :
  mostRecent n (mostRecent n l1 ++ l2) = mostRecent n (l1 ++ l2).
Proof.
  unfold mostRecent.
  rewrite !length_app, length_drop, !drop_app, drop_drop, length_drop.
  f_equal; f_equal; lia.
Qed.

Lemma mostRecent_snoc n l (v : A) :
  mostRecent (S n) (l ++ [v]) = mostRecent n l ++ [v].
Proof.
  unfold mostRecent. rewrite length_app, drop_app. simpl.
  replace (length l + 1 - S n)%nat with (length l - n)%nat by lia.
  replace (length l - n - length l)%nat with 0%nat by lia. reflexivity.
Qed.
End Rings.

(** ** The update-rate monitor *)

(** C9: a tick sets the reference timestamp to [now] in every case, and,
    when [now - lastUpdateTimestamp] is positive, leaves in the rate ring
    the 30 most recent of the old samples followed by
    [1000 / (now - lastUpdateTimestamp)]; otherwise the ring is as it was. *)
Theorem rateTick_ring (now : Z) (st : AppState) :
  lastUpdateTimestamp (rateTick now st) = now /\
  entityUpdateRate (rateTick now st)
  = (if 0 <? now - lastUpdateTimestamp st
     then mostRecent 30
            (entityUpdateRate st
               ++ [(inject_Z 1000 / inject_Z (now - lastUpdateTimestamp st))%Q])
     else entityUpdateRate st) /\
  (length (mostRecent 30
             (entityUpdateRate st
                ++ [(inject_Z 1000 / inject_Z (now - lastUpdateTimestamp st))%Q]))
   <= 30)%nat.
Proof.
  split; [reflexivity|]. split; [|apply mostRecent_length].
  unfold rateTick. destruct (0 <? now - lastUpdateTimestamp st); [|reflexivity].
  cbn [entityUpdateRate setLastUpdateTimestamp setEntityUpdateRate].
  rewrite mostRecent_snoc.
  rewrite <- (slice_from_negative (entityUpdateRate st) 29) by lia. reflexivity.
Qed.

Example rateTick_500ms :
  entityUpdateRate (rateTick 1500 (initialState 1000)) = [(1000 # 500)%Q] /\
  lastUpdateTimestamp (rateTick 1500 (initialState 1000)) = 1500.
Proof. split; reflexivity. Qed.

Example rateTick_no_sample :
  rateTick 1000 (initialState 1000) = initialState 1000.
Proof. reflexivity. Qed.

(** ** The outcome aggregator *)

Lemma mapRecords_length (r : Z -> FlipRecord) (clock : nat -> Z) (flips : list Pos) :
  length (mapRecords r clock flips) = length flips.
Proof. unfold mapRecords. apply length_imap. Qed.

Lemma mapRecords_lookup (r : Z -> FlipRecord) (clock : nat -> Z) (flips : list Pos)
    (i : nat) (rec : FlipRecord) :
  mapRecords r clock flips !! i = Some rec -> rec = r (clock i).
Proof.
  unfold mapRecords. rewrite list_lookup_imap.
  destruct (flips !! i); simpl; congruence.
Qed.

Lemma executeFlips_submitted (a : string) (flips : list Pos) (res : ExecResult)
    (clk : ExecClock) (st : AppState) :
  flips <> [] ->
  executeFlips (Some a) flips res clk st
  = match res with
    | TxOk tx_hash =>
        setTilePositions (markFlipped flips)
          (setMetrics (recordSuccess flips clk)
             (setTxLogs
                (fun prev => JS.slice_from (prev ++ [mkTxLog tx_hash (logTime clk)]) (-10))
                st))
    | TxError => setMetrics (recordFailure flips clk) st
    end.
Proof.
  intros Hne. unfold executeFlips.
  rewrite bool_decide_eq_false_2 by discriminate.
  destruct flips as [|p flips]; [contradiction|].
  reflexivity.
Qed.

(** C7: a failed submission of a chunk of [n] items adds [n] to
    [totalFlips] and to [failedFlips], appends to the history (a ring of
    100) one record per item, each with [success = false], and changes
    neither [averageResponseTime] nor [successfulFlips] nor the pending
    and flipped positions, nor anything else of the state. *)
Theorem failed_chunk_accounting (a : string) (flips : list Pos) (clk : ExecClock)
    (st : AppState) :
  flips <> [] ->
  let st' := executeFlips (Some a) flips TxError clk st in
  let records := mapRecords failureRecord (recordTime clk) flips in
  totalFlips (metrics st') = totalFlips (metrics st) + Z.of_nat (length flips) /\
  failedFlips (metrics st') = failedFlips (metrics st) + Z.of_nat (length flips) /\
  flipHistory (metrics st') = mostRecent 100 (flipHistory (metrics st) ++ records) /\
  length records = length flips /\
  Forall (fun rec => success rec = false) records /\
  averageResponseTime (metrics st') = averageResponseTime (metrics st) /\
  successfulFlips (metrics st') = successfulFlips (metrics st) /\
  powerups (metrics st') = powerups (metrics st) /\
  tilePositions st' = tilePositions st /\
  pendingFlips st' = pendingFlips st /\
  txLogs st' = txLogs st.
Proof.
  intros Hne st' records. subst st'.
  rewrite (executeFlips_submitted a flips TxError clk st Hne).
  cbn [metrics setMetrics recordFailure totalFlips failedFlips flipHistory
       averageResponseTime successfulFlips powerups tilePositions pendingFlips txLogs].
  repeat split.
  - apply (slice_from_negative _ 100). lia.
  - apply mapRecords_length.
  - apply Forall_lookup_2. intros i rec Hi.
    apply mapRecords_lookup in Hi. subst rec. reflexivity.
Qed.

(** C10: without a connected account, or with no coordinates, a dispatch
    leaves the whole state as it was, whatever the executor would answer. *)
Theorem skipped_chunk_changes_nothing (account : option string) (flips : list Pos)
    (res : ExecResult) (clk : ExecClock) (st : AppState) :
  account = None \/ flips = [] ->
  executeFlips account flips res clk st = st.
Proof.
  intros [-> | ->]; unfold executeFlips.
  - reflexivity.
  - rewrite orb_true_r. reflexivity.
Qed.

Lemma failed_chunk_accounting_witness :
  sampleFlips 2 <> [] /\
  let st' := executeFlips (Some "0x1"%string) (sampleFlips 2) TxError
               (sampleClock 1000 120) (initialState 0) in
  let records := mapRecords failureRecord (recordTime (sampleClock 1000 120)) (sampleFlips 2) in
  totalFlips (metrics st') = totalFlips (metrics (initialState 0)) + Z.of_nat (length (sampleFlips 2)) /\
  failedFlips (metrics st') = failedFlips (metrics (initialState 0)) + Z.of_nat (length (sampleFlips 2)) /\
  flipHistory (metrics st') = mostRecent 100 (flipHistory (metrics (initialState 0)) ++ records) /\
  length records = length (sampleFlips 2) /\
  Forall (fun rec => success rec = false) records /\
  averageResponseTime (metrics st') = averageResponseTime (metrics (initialState 0)) /\
  successfulFlips (metrics st') = successfulFlips (metrics (initialState 0)) /\
  powerups (metrics st') = powerups (metrics (initialState 0)) /\
  tilePositions st' = tilePositions (initialState 0) /\
  pendingFlips st' = pendingFlips (initialState 0) /\
  txLogs st' = txLogs (initialState 0).
Proof.
  split; [discriminate|].
  apply (failed_chunk_accounting "0x1" (sampleFlips 2) (sampleClock 1000 120) (initialState 0)).
  discriminate.
Defined.

Example failed_chunk_of_two :
  metrics (executeFlips (Some "0x1"%string) (sampleFlips 2) TxError
             (sampleClock 1000 120) (initialState 0))
  = mkFlipMetrics 2 0 2 0%Q (powerups initialMetrics)
      [failureRecord 1120; failureRecord 1120].
Proof. reflexivity. Qed.

Lemma skipped_chunk_changes_nothing_witness :
  (@None string = None \/ sampleFlips 3 = []) /\
  executeFlips None (sampleFlips 3) TxError (sampleClock 1000 120) (initialState 0)
  = initialState 0.
Proof.
  split; [left; reflexivity|].
  apply (skipped_chunk_changes_nothing None (sampleFlips 3) TxError
           (sampleClock 1000 120) (initialState 0)).
  left; reflexivity.
Defined.

(** The running mean after a successful chunk, as the code computes it. *)
Lemma recordSuccess_average (flips : list Pos) (clk : ExecClock) (prev : FlipMetrics) :
  averageResponseTime (recordSuccess flips clk prev)
  = ((averageResponseTime prev * inject_Z (totalFlips prev)
      + inject_Z (endTime clk - startTime clk))
     / inject_Z (totalFlips prev + Z.of_nat (length flips)))%Q.
Proof. reflexivity. Qed.

(** C1 (the code at the scenario of the claim): from the initial
    metrics, one successful chunk of 3 items answered after 120 ms gives
    [totalFlips = 3] and [successfulFlips = 3], but
    [averageResponseTime = 40]: the elapsed time enters the sum once and
    is divided by the number of items, so the result is not the mean of
    the three elapsed times, which is 120. *)
Theorem average_after_chunk_of_three :
  let st' := executeFlips (Some "0x1"%string) (sampleFlips 3) (TxOk "0xabc")
               (sampleClock 1000 120) (initialState 0) in
  totalFlips (metrics st') = 3 /\
  successfulFlips (metrics st') = 3 /\
  (averageResponseTime (metrics st') == 40)%Q /\
  ~ (averageResponseTime (metrics st') == 120)%Q.
Proof.
  cbv zeta. repeat split; try reflexivity.
  intros H. vm_compute in H. discriminate H.
Qed.

(** ** The dispatch scheduler *)

Lemma slice_window (l : list Pos) (i k : Z) :
  0 <= i < Z.of_nat (length l) -> 0 <= k ->
  JS.slice l i (i + k) = take (Z.to_nat k) (drop (Z.to_nat i) l).
Proof.
  intros Hi Hk. unfold JS.slice.
  destruct (Z.ltb_spec i 0) as [?|_]; [lia|].
  destruct (Z.ltb_spec (i + k) 0) as [?|_]; [lia|].
  replace (Z.to_nat (Z.min i (Z.of_nat (length l)))) with (Z.to_nat i) by lia.
  destruct (Z.le_gt_cases (i + k) (Z.of_nat (length l))) as [Hle|Hgt].
  - f_equal. lia.
  - rewrite !take_ge; [reflexivity| |]; rewrite length_drop; lia.
Qed.

(** The loop of the drain effect ends when the chunk size is positive,
    and its chunks partition what was left of the queue at index [i]. *)
Lemma chunkLoop_spec (chunkSize : Z) (l : list Pos) :
  1 <= chunkSize ->
  forall (fuel : nat) (i : Z) (chunks : list (list Pos)),
    0 <= i ->
    Z.max (Z.of_nat (length l) - i) 0 < Z.of_nat fuel ->
    exists rest,
      chunkLoop fuel chunkSize l i chunks = Some (chunks ++ rest) /\
      concat rest = drop (Z.to_nat i) l /\
      Forall (fun c => (0 < length c)%nat /\ Z.of_nat (length c) <= chunkSize) rest /\
      Z.of_nat (length rest)
      = (Z.max (Z.of_nat (length l) - i) 0 + chunkSize - 1) / chunkSize.
Proof.
  intros Hk. induction fuel as [|fuel IH]; intros i chunks Hi Hfuel; [lia|].
  cbn [chunkLoop]. destruct (Z.ltb_spec i (Z.of_nat (length l))) as [Hlt|Hge].
  - destruct (IH (i + chunkSize) (chunks ++ [JS.slice l i (i + chunkSize)]))
      as (rest & -> & Hcat & Hall & Hlen); [lia|lia|].
    exists (JS.slice l i (i + chunkSize) :: rest).
    rewrite <- app_assoc. split; [reflexivity|].
    rewrite slice_window by lia.
    split; [|split].
    + cbn [concat]. rewrite Hcat.
      replace (Z.to_nat (i + chunkSize)) with (Z.to_nat i + Z.to_nat chunkSize)%nat by lia.
      rewrite <- drop_drop. apply take_drop.
    + constructor; [|exact Hall].
      rewrite length_take, length_drop. lia.
    + cbn [length]. rewrite Nat2Z.inj_succ, Hlen.
      destruct (Z.le_gt_cases chunkSize (Z.of_nat (length l) - i)) as [Hfull|Hlast].
      * replace (Z.max (Z.of_nat (length l) - (i + chunkSize)) 0)
          with (Z.of_nat (length l) - i - chunkSize) by lia.
        replace (Z.max (Z.of_nat (length l) - i) 0 + chunkSize - 1)
          with (Z.of_nat (length l) - i - chunkSize + chunkSize - 1 + 1 * chunkSize) by lia.
        rewrite Z.div_add by lia. lia.
      * replace (Z.max (Z.of_nat (length l) - (i + chunkSize)) 0) with 0 by lia.
        rewrite Z.div_small by lia.
        apply (Z.div_unique_pos _ _ 1 (Z.of_nat (length l) - i - 1)); lia.
  - exists []. rewrite app_nil_r. split; [reflexivity|]. split; [|split].
    + symmetry. apply drop_ge. lia.
    + constructor.
    + replace (Z.max (Z.of_nat (length l) - i) 0) with 0 by lia.
      rewrite Z.div_small by lia. reflexivity.
Qed.

Lemma schedule_chunks (executionDelay : Z) (chunks : list (list Pos)) :
  chunk <$> schedule executionDelay chunks = chunks.
Proof.
  apply list_eq. intros i. unfold schedule.
  rewrite list_lookup_fmap, list_lookup_imap.
  destruct (chunks !! i); reflexivity.
Qed.

Lemma schedule_lookup (executionDelay : Z) (chunks : list (list Pos)) (i : nat)
    (call : Dispatch) :
  schedule executionDelay chunks !! i = Some call ->
  delay call = Z.of_nat i * executionDelay /\ chunks !! i = Some (chunk call).
Proof.
  unfold schedule. rewrite list_lookup_imap.
  destruct (chunks !! i); simpl; [|discriminate].
  intros [= <-]. split; reflexivity.
Qed.

(** C5: with a chunk size [k] between 1 and 20, a drain cycle over a
    queue of [n] candidates ends (given fuel for [n + 1] tests of the
    loop), empties the queue and schedules [ceil (n / k)] calls; every
    chunk holds between 1 and [k] candidates, the chunks in the order
    of dispatch concatenate to the drained queue, and the call of
    index [i] is set [i * executionDelay] ms after the drain. *)
Theorem drain_partitions_queue (fuel : nat) (chunkSize executionDelay : Z)
    (st : AppState) :
  1 <= chunkSize <= 20 ->
  (length (pendingFlips st) < fuel)%nat ->
  exists calls,
    drainPending fuel chunkSize executionDelay st
    = Some (calls, setPendingFlips (fun _ => []) st) /\
    Z.of_nat (length calls)
    = (Z.of_nat (length (pendingFlips st)) + chunkSize - 1) / chunkSize /\
    Forall (fun call => (0 < length (chunk call))%nat /\
                        Z.of_nat (length (chunk call)) <= chunkSize) calls /\
    concat (chunk <$> calls) = pendingFlips st /\
    (forall (i : nat) (call : Dispatch),
        calls !! i = Some call -> delay call = Z.of_nat i * executionDelay).
Proof.
  intros Hk Hfuel. unfold drainPending.
  destruct (Z.eqb_spec (Z.of_nat (length (pendingFlips st))) 0) as [Hempty|Hne].
  - exists []. assert (pendingFlips st = []) as Hnil
      by (destruct (pendingFlips st); [reflexivity|simpl in Hempty; lia]).
    split; [|split; [|split; [|split]]].
    + destruct st; simpl in *; subst; reflexivity.
    + rewrite Hnil. simpl. rewrite Z.div_small by lia. reflexivity.
    + constructor.
    + rewrite Hnil. reflexivity.
    + intros i call Hi. rewrite lookup_nil in Hi. discriminate.
  - destruct (chunkLoop_spec chunkSize (pendingFlips st) (proj1 Hk) fuel 0 [])
      as (chunks & -> & Hcat & Hall & Hlen); [lia|lia|].
    cbn [app mbind option_bind].
    exists (schedule executionDelay chunks).
    split; [reflexivity|]. split; [|split; [|split]].
    + unfold schedule. rewrite length_imap, Hlen. f_equal. lia.
    + apply Forall_lookup_2. intros i call Hi.
      apply schedule_lookup in Hi as [_ Hi].
      exact (Forall_lookup_1 _ _ _ _ Hall Hi).
    + rewrite schedule_chunks. exact Hcat.
    + intros i call Hi. apply schedule_lookup in Hi as [Hd _]. exact Hd.
Qed.

Lemma drain_partitions_queue_witness :
  1 <= 10 <= 20 /\
  (length (pendingFlips (setPendingFlips (fun _ => sampleFlips 25) (initialState 0))) < 26)%nat /\
  exists calls,
    drainPending 26 10 100 (setPendingFlips (fun _ => sampleFlips 25) (initialState 0))
    = Some (calls,
            setPendingFlips (fun _ => [])
              (setPendingFlips (fun _ => sampleFlips 25) (initialState 0))) /\
    Z.of_nat (length calls)
    = (Z.of_nat (length (pendingFlips
                           (setPendingFlips (fun _ => sampleFlips 25) (initialState 0))))
       + 10 - 1) / 10 /\
    Forall (fun call => (0 < length (chunk call))%nat /\
                        Z.of_nat (length (chunk call)) <= 10) calls /\
    concat (chunk <$> calls)
    = pendingFlips (setPendingFlips (fun _ => sampleFlips 25) (initialState 0)) /\
    (forall (i : nat) (call : Dispatch),
        calls !! i = Some call -> delay call = Z.of_nat i * 100).
Proof.
  split; [lia|]. split; [vm_compute; lia|].
  apply (drain_partitions_queue 26 10 100
           (setPendingFlips (fun _ => sampleFlips 25) (initialState 0))).
  - lia.
  - vm_compute. lia.
Defined.

(** The scenario of the specification: 25 candidates in chunks of 10. *)
Example drain_25_by_10 (executionDelay : Z) :
  (fun res : list Dispatch * AppState =>
     ((fun call : Dispatch => (delay call, length (chunk call))) <$> fst res,
      pendingFlips (snd res)))
    <$> drainPending 26 10 executionDelay
          (setPendingFlips (fun _ => sampleFlips 25) (initialState 0))
  = Some ([(0, 10%nat); (executionDelay, 10%nat); (2 * executionDelay, 5%nat)], []).
Proof.
  cbn. repeat f_equal. destruct executionDelay; reflexivity.
Qed.

(** Without a positive chunk size the loop of the drain does not end:
    no amount of fuel is enough. *)
Example drain_chunk_size_zero (fuel : nat) :
  drainPending fuel 0 100 (setPendingFlips (fun _ => sampleFlips 1) (initialState 0)) = None.
Proof.
  unfold drainPending. cbn [pendingFlips setPendingFlips sampleFlips].
  change (Z.of_nat (length ((fun i => mkPos (Z.of_nat i) (Z.of_nat i)) <$> seq 0 1)) =? 0)
    with false. cbv iota.
  enough (forall chunks,
             chunkLoop fuel 0 ((fun i => mkPos (Z.of_nat i) (Z.of_nat i)) <$> seq 0 1) 0 chunks
             = None) as -> by reflexivity.
  induction fuel as [|fuel IH]; intros chunks; [reflexivity|].
  cbn [chunkLoop]. change (0 + 0) with 0.
  change (0 <? Z.of_nat (length ((fun i => mkPos (Z.of_nat i) (Z.of_nat i)) <$> seq 0 1)))
    with true. cbv iota. apply IH.
Qed.

(** ** The admission filter *)

Lemma unownedPositions_cons (TILE_HASHES : list string) (ev : EntityEvent)
    (evs : list EntityEvent) :
  unownedPositions TILE_HASHES (ev :: evs)
  = unownedPositions TILE_HASHES [ev] ++ unownedPositions TILE_HASHES evs.
Proof.
  unfold unownedPositions. cbn [omap list_omap].
  destruct (tileModel ev) as [model|]; [|reflexivity].
  destruct (parseTileModel TILE_HASHES model (Some (hashedKeys ev))) as [tile|]; [|reflexivity].
  destruct (String.eqb (address tile) "0x0"); reflexivity.
Qed.

(** What one event adds to the pending queue. *)
Lemma handleEntityUpdated_pending (TILE_HASHES : list string) (account : option string)
    (sampleFactor : Q) (ev : EntityEvent) (st : AppState) :
  pendingFlips (handleEntityUpdated TILE_HASHES account sampleFactor ev st)
  = pendingFlips st
      ++ (if Qlt_bool (random ev) sampleFactor
          then unownedPositions TILE_HASHES [ev] else []).
Proof.
  unfold handleEntityUpdated, unownedPositions. cbn [omap list_omap].
  destruct (tileModel ev) as [model|];
    [|destruct (Qlt_bool _ _); cbn; rewrite app_nil_r; reflexivity].
  destruct (parseTileModel TILE_HASHES model (Some (hashedKeys ev))) as [tile|];
    [|destruct (Qlt_bool _ _); cbn; rewrite app_nil_r; reflexivity].
  destruct (String.eqb (address tile) "0x0"), (Qlt_bool (random ev) sampleFactor),
    (bool_decide (Some (address tile) = account)); cbn;
    rewrite ?app_nil_r; reflexivity.
Qed.

Lemma Qlt_bool_zero (r : Q) : (0 <= r)%Q -> Qlt_bool r 0 = false.
Proof.
  intros H. unfold Qlt_bool. apply Qle_bool_iff in H. rewrite H. reflexivity.
Qed.

Lemma Qlt_bool_one (r : Q) : (r < 1)%Q -> Qlt_bool r 1 = true.
Proof.
  intros H. unfold Qlt_bool. destruct (Qle_bool 1 r) eqn:E; [|reflexivity].
  apply Qle_bool_iff in E. contradiction (Qlt_not_le _ _ H E).
Qed.

(** The handler at the two ends of the range: for draws of
    [Math.random()] in [0, 1), a handler that holds the sample factor 0
    leaves the pending queue as it was, however many events it is given,
    and a handler that holds the sample factor 1 appends to it the
    coordinates of every event that decodes to an unowned tile, in the
    order of arrival. *)
Lemma admission_at_extremes (TILE_HASHES : list string) (account : option string)
    (evs : list EntityEvent) (st : AppState) :
  Forall (fun ev => (0 <= random ev)%Q /\ (random ev < 1)%Q) evs ->
  pendingFlips (feed TILE_HASHES account 0%Q evs st) = pendingFlips st /\
  pendingFlips (feed TILE_HASHES account 1%Q evs st)
  = pendingFlips st ++ unownedPositions TILE_HASHES evs.
Proof.
  intros Hrnd. revert st.
  induction Hrnd as [|ev evs [Hlo Hhi] _ IH]; intros st.
  - split; [reflexivity|]. cbn. rewrite app_nil_r. reflexivity.
  - unfold feed in *. cbn [foldl].
    destruct (IH (handleEntityUpdated TILE_HASHES account 0%Q ev st)) as [-> _].
    destruct (IH (handleEntityUpdated TILE_HASHES account 1%Q ev st)) as [_ ->].
    rewrite !handleEntityUpdated_pending.
    rewrite (Qlt_bool_zero _ Hlo), (Qlt_bool_one _ Hhi), app_nil_r.
    split; [reflexivity|].
    rewrite <- app_assoc, <- unownedPositions_cons. reflexivity.
Qed.

Lemma admission_at_extremes_witness :
  Forall (fun ev => (0 <= random ev)%Q /\ (random ev < 1)%Q) sampleFeed /\
  pendingFlips (feed [] None 0%Q sampleFeed (initialState 0))
  = pendingFlips (initialState 0) /\
  pendingFlips (feed [] None 1%Q sampleFeed (initialState 0))
  = pendingFlips (initialState 0) ++ unownedPositions [] sampleFeed.
Proof.
  assert (Forall (fun ev => (0 <= random ev)%Q /\ (random ev < 1)%Q) sampleFeed) as Hrnd.
  { unfold sampleFeed.
    repeat (apply Forall_cons; split; [unfold Qle, Qlt; simpl; lia|]).
    apply Forall_nil. exact I. }
  split; [exact Hrnd|].
  apply (admission_at_extremes [] None sampleFeed (initialState 0) Hrnd).
Defined.

(** C6 (the code where the control is moved while the bot runs): the
    running subscription keeps the handler of the render that created
    it.  A bot started at the sample factor 1 still admits an unowned
    tile (draw 1/2) after the control is set to 0, and a bot started at
    the sample factor 0 still admits nothing after the control is set
    to 1. *)
Theorem running_bot_keeps_old_sample_factor :
  let unowned :=
    mkEntityEvent "0xaa" (Some (mkModel (Some "0x0"%string) (Some 1) (Some 2)))
      10 11 (1 # 2)%Q in
  let lowered := onEntityUpdated [] unowned (setSampleFactor 0 (startBot (initialBot 0 None))) in
  let raised :=
    onEntityUpdated [] unowned
      (setSampleFactor 1 (startBot (setSampleFactor 0 (initialBot 0 None)))) in
  (sampleFactorCell lowered = 0%Q /\ pendingFlips (appState lowered) = [mkPos 1 2]) /\
  (sampleFactorCell raised = 1%Q /\ pendingFlips (appState raised) = []).
Proof. cbv zeta. split; split; reflexivity. Qed.

(** Without a change of the control between the start of the bot and
    the events, the handler holds the value of the control. *)
Lemma started_bot_holds_the_control (TILE_HASHES : list string) (ev : EntityEvent)
    (bot : Bot) :
  appState (onEntityUpdated TILE_HASHES ev (startBot bot))
  = handleEntityUpdated TILE_HASHES (accountCell bot) (sampleFactorCell bot) ev
      (appState bot).
Proof. reflexivity. Qed.

Example admission_of_sample_feed :
  pendingFlips (feed [] None 1%Q sampleFeed (initialState 0)) = [mkPos 1 2] /\
  pendingFlips (feed [] None 0%Q sampleFeed (initialState 0)) = [] /\
  pendingFlips (feed [] None (1 # 2)%Q sampleFeed (initialState 0)) = [].
Proof. vm_compute. auto. Qed.

(** ** The flip history *)

Lemma drainPending_metrics (fuel : nat) (chunkSize executionDelay : Z)
    (st st' : AppState) (calls : list Dispatch) :
  drainPending fuel chunkSize executionDelay st = Some (calls, st') ->
  metrics st' = metrics st.
Proof.
  unfold drainPending.
  destruct (Z.of_nat (length (pendingFlips st)) =? 0); [congruence|].
  destruct (chunkLoop fuel chunkSize (pendingFlips st) 0 []); [|discriminate].
  cbn. intros [= _ <-]. reflexivity.
Qed.

(** Every transition leaves in the history the 100 most recent of its
    old records and of the records of its label. *)
Lemma step_history (TILE_HASHES : list string) (st st' : AppState)
    (log : list FlipRecord) :
  step TILE_HASHES st log st' ->
  (length (flipHistory (metrics st)) <= 100)%nat ->
  flipHistory (metrics st') = mostRecent 100 (flipHistory (metrics st) ++ log).
Proof.
  intros Hstep Hlen.
  assert (flipHistory (metrics st) = mostRecent 100 (flipHistory (metrics st) ++ [])) as Hsame
    by (rewrite app_nil_r, mostRecent_short; [reflexivity|exact Hlen]).
  destruct Hstep as [account sampleFactor ev|account flips res clk|now
                    |fuel chunkSize executionDelay calls st' Hdrain].
  - unfold handleEntityUpdated, ownRecords.
    destruct (tileModel ev) as [model|]; [|exact Hsame].
    destruct (parseTileModel TILE_HASHES model (Some (hashedKeys ev))) as [tile|];
      [|exact Hsame].
    destruct (bool_decide (Some (address tile) = account)),
      (String.eqb (address tile) "0x0"), (Qlt_bool (random ev) sampleFactor);
      cbn [metrics admitCandidate setTilePositions setPendingFlips setMetrics
           setLastUpdateTimestamp recordOwnFlip flipHistory];
      first [exact Hsame | apply (slice_from_negative _ 100); lia].
  - unfold chunkRecords. destruct account as [a|]; [|exact Hsame].
    destruct flips as [|p flips].
    + destruct res; exact Hsame.
    + rewrite executeFlips_submitted by discriminate.
      destruct res;
        cbn [metrics setTilePositions setTxLogs setMetrics recordSuccess recordFailure
             flipHistory];
        apply (slice_from_negative _ 100); lia.
  - unfold rateTick. destruct (0 <? now - lastUpdateTimestamp st); exact Hsame.
  - rewrite (drainPending_metrics _ _ _ _ _ _ Hdrain). exact Hsame.
Qed.

(** C8: along every run from the initial state, whatever its
    transitions (updates of the feed, successful and failed chunks,
    ticks, drains), the flip history holds the 100 most recent of the
    records submitted to it so far, in the order of submission, and so
    at most 100 records. *)
Theorem history_keeps_most_recent_100 (TILE_HASHES : list string) (now : Z)
    (log : list FlipRecord) (st : AppState) :
  run TILE_HASHES (initialState now) log st ->
  flipHistory (metrics st) = mostRecent 100 log /\
  (length (flipHistory (metrics st)) <= 100)%nat.
Proof.
  intros Hrun.
  enough (flipHistory (metrics st) = mostRecent 100 log) as ->
    by (split; [reflexivity|apply mostRecent_length]).
  induction Hrun as [|log1 st1 log2 st2 _ IH Hstep]; [reflexivity|].
  rewrite (step_history _ _ _ _ Hstep) by (rewrite IH; apply mostRecent_length).
  rewrite IH. apply mostRecent_app_mostRecent.
Qed.

(** Dispatching chunks one after the other is a run. *)
Lemma run_executeAll (TILE_HASHES : list string) (account : option string)
    (chunks : list (list Pos * ExecResult * ExecClock)) :
  forall (st st1 : AppState) (log : list FlipRecord),
    run TILE_HASHES st log st1 ->
    run TILE_HASHES st (log ++ chunkLog account chunks) (executeAll account chunks st1).
Proof.
  induction chunks as [|c chunks IH]; intros st st1 log Hrun.
  - unfold chunkLog. cbn. rewrite app_nil_r. exact Hrun.
  - unfold chunkLog, executeAll in *. cbn [foldl fmap list_fmap concat].
    rewrite app_assoc. apply IH.
    eapply run_more; [exact Hrun|]. apply step_execute.
Qed.

Lemma history_keeps_most_recent_100_witness :
  run [] (initialState 0) ([] ++ chunkLog (Some "0x1"%string) sampleChunks)
    (executeAll (Some "0x1"%string) sampleChunks (initialState 0)) /\
  flipHistory (metrics (executeAll (Some "0x1"%string) sampleChunks (initialState 0)))
  = mostRecent 100 ([] ++ chunkLog (Some "0x1"%string) sampleChunks) /\
  (length (flipHistory
             (metrics (executeAll (Some "0x1"%string) sampleChunks (initialState 0))))
   <= 100)%nat.
Proof.
  assert (run [] (initialState 0) ([] ++ chunkLog (Some "0x1"%string) sampleChunks)
            (executeAll (Some "0x1"%string) sampleChunks (initialState 0))) as Hrun
    by (apply run_executeAll; apply run_done).
  split; [exact Hrun|].
  apply (history_keeps_most_recent_100 [] 0 _ _ Hrun).
Defined.

(** Six chunks of 20 submit 120 records; the history keeps the last 100,
    the first of which is the record of the 21st item. *)
Example history_after_six_chunks :
  length (chunkLog (Some "0x1"%string) sampleChunks) = 120%nat /\
  length (flipHistory
            (metrics (executeAll (Some "0x1"%string) sampleChunks (initialState 0))))
  = 100%nat /\
  head (flipHistory
          (metrics (executeAll (Some "0x1"%string) sampleChunks (initialState 0))))
  = Some (failureRecord 1120) /\
  chunkLog (Some "0x1"%string) sampleChunks !! 20%nat = Some (failureRecord 1120).
Proof. vm_compute. auto. Qed.

(** * Further properties of the code *)

Lemma string_app_cons (c : ascii) (a b : string) :
  String c a +:+ b = String c (a +:+ b).
Proof. reflexivity. Qed.

Lemma string_app_nil (b : string) : "" +:+ b = b.
Proof. reflexivity. Qed.

Lemma string_length_app (a b : string) :
  String.length (a +:+ b) = (String.length a + String.length b)%nat.
Proof.
  induction a as [|c a IH]; [reflexivity|].
  rewrite string_app_cons. simpl. f_equal. exact IH.
Qed.

Lemma string_app_assoc (a b c : string) : (a +:+ b) +:+ c = a +:+ (b +:+ c).
Proof.
  induction a as [|x a IH]; [reflexivity|].
  rewrite !string_app_cons. f_equal. exact IH.
Qed.

Lemma substring_whole (s : string) (m : nat) :
  (String.length s <= m)%nat -> String.substring 0 m s = s.
Proof.
  revert m. induction s as [|c s IH]; intros m Hm; destruct m; simpl in *;
    try reflexivity; try lia.
  rewrite IH by lia. reflexivity.
Qed.

Lemma substring_middle (pre mid post : string) :
  String.substring (String.length pre) (String.length mid) (pre +:+ mid +:+ post) = mid.
Proof.
  induction pre as [|c pre IH]; [|rewrite string_app_cons; exact IH].
  rewrite string_app_nil.
  induction mid as [|c mid IH]; [destruct post; reflexivity|].
  rewrite string_app_cons. simpl. f_equal. exact IH.
Qed.

Lemma js_substring_middle (pre mid post : string) (a b : Z) :
  a = Z.of_nat (String.length pre) ->
  b = Z.of_nat (String.length pre + String.length mid) ->
  JS.substring (pre +:+ mid +:+ post) a b = mid.
Proof.
  intros -> ->. unfold JS.substring, JS.clamp.
  rewrite !string_length_app.
  replace (Z.to_nat _) with (String.length pre) by lia.
  replace (Z.to_nat _) with (String.length mid) by lia.
  apply substring_middle.
Qed.

Lemma hex_digit_range (c : ascii) (d : Z) : JS.hex_digit c = Some d -> 0 <= d <= 15.
Proof.
  unfold JS.hex_digit. set (n := Z.of_nat (nat_of_ascii c)).
  destruct (Z.leb_spec 48 n), (Z.leb_spec n 57); simpl; try (intros [= <-]; lia);
    destruct (Z.leb_spec 97 n), (Z.leb_spec n 102); simpl; try (intros [= <-]; lia);
    destruct (Z.leb_spec 65 n), (Z.leb_spec n 70); simpl; try (intros [= <-]; lia);
    discriminate.
Qed.

Lemma fmap_mul_1 (o : option Z) : Z.mul 1 <$> o = o.
Proof. destruct o as [z|]; [|reflexivity]. simpl. f_equal. lia. Qed.

(** [parseInt] on a string that starts with a hexadecimal digit and not
    with the prefix [0x]. *)
Lemma parseInt16_hex_head (c : ascii) (s : string) (d : Z) :
  JS.hex_digit c = Some d ->
  (forall r, s <> String "x" r) ->
  (forall r, s <> String "X" r) ->
  JS.parseInt16 (String c s) = JS.hex_prefix (Some d) s.
Proof.
  intros H Hx HX.
  destruct c as [[] [] [] [] [] [] [] []]; vm_compute in H; try discriminate H;
    injection H as <-; unfold JS.parseInt16; cbn [JS.skip_whitespace];
    match goal with
    | |- context [JS.is_whitespace ?a] => change (JS.is_whitespace a) with false
    end;
    cbv beta iota zeta; rewrite fmap_mul_1; try reflexivity.
  destruct s as [|c2 s]; [reflexivity|].
  destruct c2 as [[] [] [] [] [] [] [] []]; try reflexivity;
    exfalso; first [apply (Hx s); reflexivity | apply (HX s); reflexivity].
Qed.

Lemma parseInt16_digit (c : ascii) (d : Z) :
  JS.hex_digit c = Some d -> JS.parseInt16 (String c "") = Some d.
Proof.
  intros H. rewrite (parseInt16_hex_head c "" d H); [reflexivity| |]; discriminate.
Qed.

Lemma parseInt16_two_digits (c1 c2 : ascii) (d1 d2 : Z) :
  JS.hex_digit c1 = Some d1 -> JS.hex_digit c2 = Some d2 ->
  JS.parseInt16 (String c1 (String c2 "")) = Some (16 * d1 + d2).
Proof.
  intros H1 H2.
  rewrite (parseInt16_hex_head c1 (String c2 "") d1 H1).
  - cbn [JS.hex_prefix]. rewrite H2. reflexivity.
  - intros r [= -> _]. vm_compute in H2. discriminate H2.
  - intros r [= -> _]. vm_compute in H2. discriminate H2.
Qed.

Lemma strip_leading_zeros_cons (c : ascii) (s : string) :
  JS.strip_leading_zeros (String c s)
  = if Ascii.eqb c "0" then JS.strip_leading_zeros s else String c s.
Proof. destruct c as [[] [] [] [] [] [] [] []]; reflexivity. Qed.

Lemma strip_leading_zeros_app (a b : string) :
  JS.strip_leading_zeros (a +:+ b)
  = match JS.strip_leading_zeros a with
    | EmptyString => JS.strip_leading_zeros b
    | String c r => String c r +:+ b
    end.
Proof.
  induction a as [|c a IH]; [reflexivity|].
  rewrite string_app_cons, !strip_leading_zeros_cons.
  destruct (Ascii.eqb c "0"); [exact IH|reflexivity].
Qed.

Lemma strip_leading_zeros_length (s : string) :
  (String.length (JS.strip_leading_zeros s) <= String.length s)%nat.
Proof.
  induction s as [|c s IH]; [reflexivity|].
  rewrite strip_leading_zeros_cons. destruct (Ascii.eqb c "0"); simpl; lia.
Qed.

Lemma strip_leading_zeros_idem (s : string) :
  JS.strip_leading_zeros (JS.strip_leading_zeros s) = JS.strip_leading_zeros s.
Proof.
  induction s as [|c s IH]; [reflexivity|].
  rewrite strip_leading_zeros_cons. destruct (Ascii.eqb c "0") eqn:E; [exact IH|].
  rewrite strip_leading_zeros_cons, E. reflexivity.
Qed.

Lemma substring_from_prefix2 (a b : ascii) (rest : string) :
  JS.substring_from (String a (String b rest)) 2 = rest.
Proof.
  unfold JS.substring_from, JS.substring, JS.clamp. cbn [String.length].
  replace (Z.to_nat _) with 2%nat by lia.
  replace (Z.to_nat _) with (String.length rest) by lia.
  cbn [String.substring]. apply substring_whole. lia.
Qed.

Lemma js_substring_prefix (a b : string) :
  JS.substring (a +:+ b) 0 (Z.of_nat (String.length a)) = a.
Proof.
  apply (js_substring_middle "" a b); [reflexivity|]. simpl. reflexivity.
Qed.

Lemma js_substring_nonpos (s : string) (b : Z) : b <= 0 -> JS.substring s 0 b = ""%string.
Proof.
  intros Hb. unfold JS.substring, JS.clamp.
  replace (Z.to_nat _) with 0%nat by lia.
  replace (Z.to_nat _) with 0%nat by lia.
  destruct s; reflexivity.
Qed.

(** The owner of a value with at most four significant nibbles is the
    empty fragment. *)
Lemma maskAddress_short (packed : string) :
  (String.length (JS.strip_leading_zeros (JS.substring_from packed 2)) <= 4)%nat ->
  maskAddress packed = "0x"%string.
Proof.
  intros Hlen. unfold maskAddress. rewrite js_substring_nonpos by lia. reflexivity.
Qed.

Lemma maskAddress_fields (owner low : string) :
  String.length low = 4%nat ->
  maskAddress ("0x" +:+ owner +:+ low) = "0x" +:+ JS.strip_leading_zeros owner.
Proof.
  intros Hlow. unfold maskAddress.
  change ("0x" +:+ owner +:+ low) with (String "0" (String "x" (owner +:+ low))).
  rewrite substring_from_prefix2, strip_leading_zeros_app.
  destruct (JS.strip_leading_zeros owner) as [|c r] eqn:E.
  - rewrite js_substring_nonpos; [reflexivity|].
    pose proof (strip_leading_zeros_length low). lia.
  - rewrite string_length_app, Hlow.
    replace (Z.of_nat (String.length (String c r) + 4) - 4)
      with (Z.of_nat (String.length (String c r))) by lia.
    rewrite js_substring_prefix. reflexivity.
Qed.

(** X2: a packed value made of [0x], an owner fragment and four
    hexadecimal nibbles is decoded to the owner fragment without its
    leading zeros, to the kind given by the first nibble, the value
    given by the next two and the team given by the last; the kind and
    the team are between 0 and 15, the value between 0 and 255. *)
Theorem decode_well_formed (TILE_HASHES : list string) (owner : string)
    (k v1 v2 t : ascii) (dk dv1 dv2 dt : Z) (mx my : option Z) (key : option string) :
  JS.hex_digit k = Some dk ->
  JS.hex_digit v1 = Some dv1 ->
  JS.hex_digit v2 = Some dv2 ->
  JS.hex_digit t = Some dt ->
  parseTileModel TILE_HASHES
    (mkModel (Some ("0x" +:+ owner +:+ String k (String v1 (String v2 (String t "")))))
       mx my) key
  = JS.Return
      (mkTile (default (tileIndex TILE_HASHES key / 256) mx)
              (default (Z.rem (tileIndex TILE_HASHES key) 256) my)
              ("0x" +:+ JS.strip_leading_zeros owner)
              (Some dk) (Some (16 * dv1 + dv2)) (Some dt)) /\
  0 <= dk <= 15 /\ 0 <= 16 * dv1 + dv2 <= 255 /\ 0 <= dt <= 15.
Proof.
  intros Hk Hv1 Hv2 Ht.
  pose proof (hex_digit_range _ _ Hk). pose proof (hex_digit_range _ _ Hv1).
  pose proof (hex_digit_range _ _ Hv2). pose proof (hex_digit_range _ _ Ht).
  split; [|lia].
  set (low := String k (String v1 (String v2 (String t "")))).
  rewrite parseTileModel_owned.
  2:{ intros E. apply (f_equal String.length) in E.
      rewrite !string_length_app in E. simpl in E. lia. }
  rewrite (maskAddress_fields owner low) by reflexivity.
  assert (Z.of_nat (String.length ("0x" +:+ owner +:+ low))
          = Z.of_nat (String.length ("0x" +:+ owner)) + 4) as ->
    by (rewrite <- string_app_assoc, string_length_app; simpl; lia).
  rewrite <- string_app_assoc.
  rewrite (js_substring_middle ("0x" +:+ owner) (String k "") (String v1 (String v2 (String t ""))))
    by (simpl; lia).
  change (("0x" +:+ owner) +:+ low)
    with (("0x" +:+ owner) +:+ String k "" +:+ String v1 (String v2 (String t ""))).
  rewrite <- (string_app_assoc ("0x" +:+ owner) (String k "")).
  rewrite (js_substring_middle (("0x" +:+ owner) +:+ String k "")
             (String v1 (String v2 "")) (String t ""))
    by (rewrite ?string_length_app; simpl; lia).
  change ((("0x" +:+ owner) +:+ String k "") +:+ String v1 (String v2 "") +:+ String t "")
    with ((("0x" +:+ owner) +:+ String k "") +:+ String v1 (String v2 "") +:+ String t "" +:+ "").
  rewrite <- (string_app_assoc _ (String v1 (String v2 "")) (String t "" +:+ "")).
  rewrite (js_substring_middle ((("0x" +:+ owner) +:+ String k "") +:+ String v1 (String v2 ""))
             (String t "") "")
    by (rewrite ?string_length_app; simpl; lia).
  rewrite (parseInt16_digit _ _ Hk), (parseInt16_two_digits _ _ _ _ Hv1 Hv2),
    (parseInt16_digit _ _ Ht).
  reflexivity.
Qed.

Lemma decode_well_formed_witness :
  JS.hex_digit "1" = Some 1 /\
  JS.hex_digit "2" = Some 2 /\
  JS.hex_digit "b" = Some 11 /\
  JS.hex_digit "3" = Some 3 /\
  parseTileModel []
    (mkModel (Some ("0x" +:+ "00ab" +:+ String "1" (String "2" (String "b" (String "3" "")))))
       (Some 7) (Some 9)) None
  = JS.Return
      (mkTile (default (tileIndex [] None / 256) (Some 7))
              (default (Z.rem (tileIndex [] None) 256) (Some 9))
              ("0x" +:+ JS.strip_leading_zeros "00ab")
              (Some 1) (Some (16 * 2 + 11)) (Some 3)) /\
  0 <= 1 <= 15 /\ 0 <= 16 * 2 + 11 <= 255 /\ 0 <= 3 <= 15.
Proof.
  split; [reflexivity|]. split; [reflexivity|]. split; [reflexivity|]. split; [reflexivity|].
  apply (decode_well_formed [] "00ab" "1" "2" "b" "3" 1 2 11 3 (Some 7) (Some 9) None);
    reflexivity.
Defined.

Example decode_padded_value :
  parseTileModel [] (mkModel (Some "0x00ab12b3"%string) (Some 7) (Some 9)) None
  = JS.Return (mkTile 7 9 "0xab" (Some 1) (Some 43) (Some 3)).
Proof. vm_compute. reflexivity. Qed.

(** X1: every packed string is decoded to a tile, and the tile is unowned
    (its address is ["0x0"]) exactly when the packed string is the
    literal ["0x0"]. *)
Theorem unowned_iff_literal (TILE_HASHES : list string) (packed : string)
    (mx my : option Z) (key : option string) :
  exists tile,
    parseTileModel TILE_HASHES (mkModel (Some packed) mx my) key = JS.Return tile /\
    (address tile = "0x0"%string <-> packed = "0x0"%string).
Proof.
  destruct (parseTileModel TILE_HASHES (mkModel (Some packed) mx my) key) as [tile|] eqn:Hp;
    [|unfold parseTileModel in Hp; discriminate].
  exists tile. split; [reflexivity|].
  rewrite (parseTileModel_address _ _ _ _ Hp). cbn [model_flipped].
  split; [intros [= ->]; reflexivity|intros ->; reflexivity].
Qed.

(** X3: a packed value other than ["0x0"] with at most four significant
    nibbles, such as ["0x00001"], is decoded without an error to the
    owner ["0x"], the empty fragment. *)
Theorem short_value_has_empty_owner (TILE_HASHES : list string) (digits : string)
    (mx my : option Z) (key : option string) :
  "0x" +:+ digits <> "0x0"%string ->
  (String.length (JS.strip_leading_zeros digits) <= 4)%nat ->
  exists tile,
    parseTileModel TILE_HASHES (mkModel (Some ("0x" +:+ digits)) mx my) key
    = JS.Return tile /\
    address tile = "0x"%string.
Proof.
  intros Hne Hlen. rewrite (parseTileModel_owned _ _ _ _ _ Hne).
  eexists. split; [reflexivity|]. cbn [address].
  apply maskAddress_short.
  change ("0x" +:+ digits) with (String "0" (String "x" digits)).
  rewrite substring_from_prefix2. exact Hlen.
Qed.

Lemma short_value_has_empty_owner_witness :
  "0x" +:+ "00001" <> "0x0"%string /\
  (String.length (JS.strip_leading_zeros "00001") <= 4)%nat /\
  exists tile,
    parseTileModel [] (mkModel (Some ("0x" +:+ "00001")) None None) None = JS.Return tile /\
    address tile = "0x"%string.
Proof.
  split; [discriminate|]. split; [vm_compute; lia|].
  apply (short_value_has_empty_owner [] "00001" None None None).
  - discriminate.
  - vm_compute. lia.
Defined.

Example decode_00001 :
  parseTileModel [] (mkModel (Some "0x00001"%string) (Some 0) (Some 0)) None
  = JS.Return (mkTile 0 0 "0x" (Some 0) (Some 0) (Some 1)).
Proof. vm_compute. reflexivity. Qed.

(** X4: [maskAddress] does not see the zeros that follow the prefix
    [0x]. *)
Theorem maskAddress_ignores_leading_zeros (digits : string) :
  maskAddress ("0x" +:+ digits) = maskAddress ("0x" +:+ JS.strip_leading_zeros digits).
Proof.
  unfold maskAddress.
  change ("0x" +:+ digits) with (String "0" (String "x" digits)).
  change ("0x" +:+ JS.strip_leading_zeros digits)
    with (String "0" (String "x" (JS.strip_leading_zeros digits))).
  rewrite !substring_from_prefix2, strip_leading_zeros_idem. reflexivity.
Qed.

(** ** The handler of the feed *)

(** What one event does to the metrics. *)
Lemma handleEntityUpdated_metrics (TILE_HASHES : list string) (account : option string)
    (sampleFactor : Q) (ev : EntityEvent) (st : AppState) :
  metrics (handleEntityUpdated TILE_HASHES account sampleFactor ev st) = metrics st \/
  exists tile,
    metrics (handleEntityUpdated TILE_HASHES account sampleFactor ev st)
    = recordOwnFlip tile (recordedTime ev) (metrics st).
Proof.
  unfold handleEntityUpdated.
  destruct (tileModel ev) as [model|]; [|left; reflexivity].
  destruct (parseTileModel TILE_HASHES model (Some (hashedKeys ev))) as [tile|];
    [|left; reflexivity].
  destruct (bool_decide (Some (address tile) = account)),
    (String.eqb (address tile) "0x0"), (Qlt_bool (random ev) sampleFactor);
    first [left; reflexivity | right; exists tile; reflexivity].
Qed.

(** What one event leaves alone. *)
Lemma handleEntityUpdated_rest (TILE_HASHES : list string) (account : option string)
    (sampleFactor : Q) (ev : EntityEvent) (st : AppState) :
  lastUpdateTimestamp (handleEntityUpdated TILE_HASHES account sampleFactor ev st)
  = arrivalTime ev /\
  txLogs (handleEntityUpdated TILE_HASHES account sampleFactor ev st) = txLogs st /\
  entityUpdateRate (handleEntityUpdated TILE_HASHES account sampleFactor ev st)
  = entityUpdateRate st /\
  flipped (tilePositions (handleEntityUpdated TILE_HASHES account sampleFactor ev st))
  = flipped (tilePositions st).
Proof.
  unfold handleEntityUpdated.
  destruct (tileModel ev) as [model|]; [|repeat split].
  destruct (parseTileModel TILE_HASHES model (Some (hashedKeys ev))) as [tile|];
    [|repeat split].
  destruct (bool_decide (Some (address tile) = account)),
    (String.eqb (address tile) "0x0"), (Qlt_bool (random ev) sampleFactor);
    repeat split.
Qed.

(** X5: an event of the feed sets the reference timestamp to its arrival
    time and changes neither the counters and the mean of the metrics,
    nor the transaction log, the rate ring and the flipped positions. *)
Theorem feed_event_frame (TILE_HASHES : list string) (account : option string)
    (sampleFactor : Q) (ev : EntityEvent) (st : AppState) :
  let st' := handleEntityUpdated TILE_HASHES account sampleFactor ev st in
  lastUpdateTimestamp st' = arrivalTime ev /\
  totalFlips (metrics st') = totalFlips (metrics st) /\
  successfulFlips (metrics st') = successfulFlips (metrics st) /\
  failedFlips (metrics st') = failedFlips (metrics st) /\
  averageResponseTime (metrics st') = averageResponseTime (metrics st) /\
  txLogs st' = txLogs st /\
  entityUpdateRate st' = entityUpdateRate st /\
  flipped (tilePositions st') = flipped (tilePositions st).
Proof.
  intros st'. subst st'.
  destruct (handleEntityUpdated_rest TILE_HASHES account sampleFactor ev st)
    as (Ht & Hlog & Hrate & Hfl).
  destruct (handleEntityUpdated_metrics TILE_HASHES account sampleFactor ev st)
    as [->|[tile ->]]; repeat split; assumption.
Qed.

(** X6: a tile that belongs to somebody else (its packed value is not
    ["0x0"] and its masked owner is not the address of the account)
    changes nothing but the reference timestamp. *)
Theorem foreign_tile_is_ignored (TILE_HASHES : list string) (account : option string)
    (sampleFactor : Q) (key packed : string) (mx my : option Z) (t0 t1 : Z) (r : Q)
    (st : AppState) :
  packed <> "0x0"%string ->
  account <> Some (maskAddress packed) ->
  handleEntityUpdated TILE_HASHES account sampleFactor
    (mkEntityEvent key (Some (mkModel (Some packed) mx my)) t0 t1 r) st
  = setLastUpdateTimestamp t0 st.
Proof.
  intros Hne Hacc. unfold handleEntityUpdated.
  cbn [tileModel hashedKeys arrivalTime recordedTime random].
  rewrite (parseTileModel_owned _ _ _ _ _ Hne). cbn [address].
  rewrite bool_decide_eq_false_2 by congruence.
  pose proof (maskAddress_not_sentinel packed) as Hm.
  apply String.eqb_neq in Hm. rewrite Hm. reflexivity.
Qed.

Lemma foreign_tile_is_ignored_witness :
  "0x1a2b3"%string <> "0x0"%string /\
  Some "0xabc"%string <> Some (maskAddress "0x1a2b3") /\
  handleEntityUpdated [] (Some "0xabc"%string) 1%Q
    (mkEntityEvent "0xaa" (Some (mkModel (Some "0x1a2b3"%string) None None)) 10 11 0%Q)
    (initialState 0)
  = setLastUpdateTimestamp 10 (initialState 0).
Proof.
  split; [discriminate|]. split; [vm_compute; discriminate|].
  apply (foreign_tile_is_ignored [] (Some "0xabc"%string) 1%Q "0xaa" "0x1a2b3"
           None None 10 11 0%Q (initialState 0)).
  - discriminate.
  - vm_compute. discriminate.
Defined.

(** X7: only the literal ["0x0"] is a candidate: an event whose packed
    value is anything else is never admitted, whatever the sample factor
    and the draw. *)
Theorem only_sentinel_is_admitted (TILE_HASHES : list string) (account : option string)
    (sampleFactor : Q) (ev : EntityEvent) (st : AppState) :
  (forall model, tileModel ev = Some model -> model_flipped model <> Some "0x0"%string) ->
  pendingFlips (handleEntityUpdated TILE_HASHES account sampleFactor ev st)
  = pendingFlips st /\
  tilePositions (handleEntityUpdated TILE_HASHES account sampleFactor ev st)
  = tilePositions st.
Proof.
  intros Hev. unfold handleEntityUpdated.
  destruct (tileModel ev) as [model|]; [|split; reflexivity].
  specialize (Hev model eq_refl).
  destruct (parseTileModel TILE_HASHES model (Some (hashedKeys ev))) as [tile|] eqn:Hp;
    [|split; reflexivity].
  assert (String.eqb (address tile) "0x0" = false) as ->.
  { apply String.eqb_neq. intros E.
    unfold parseTileModel in Hp.
    destruct (model_flipped model) as [packed|]; [|discriminate].
    injection Hp as <-. cbn [address] in E.
    destruct (String.eqb_spec packed "0x0") as [->|_]; [congruence|].
    cbn [negb] in E. exact (maskAddress_not_sentinel packed E). }
  destruct (bool_decide (Some (address tile) = account)); split; reflexivity.
Qed.

Lemma only_sentinel_is_admitted_witness :
  (forall model,
      tileModel (mkEntityEvent "0xaa" (Some (mkModel (Some "0x00"%string) None None))
                   10 11 0%Q) = Some model ->
      model_flipped model <> Some "0x0"%string) /\
  pendingFlips (handleEntityUpdated [] None 1%Q
                  (mkEntityEvent "0xaa" (Some (mkModel (Some "0x00"%string) None None))
                     10 11 0%Q) (initialState 0))
  = pendingFlips (initialState 0) /\
  tilePositions (handleEntityUpdated [] None 1%Q
                   (mkEntityEvent "0xaa" (Some (mkModel (Some "0x00"%string) None None))
                      10 11 0%Q) (initialState 0))
  = tilePositions (initialState 0).
Proof.
  assert (forall model,
             tileModel (mkEntityEvent "0xaa" (Some (mkModel (Some "0x00"%string) None None))
                          10 11 0%Q) = Some model ->
             model_flipped model <> Some "0x0"%string) as H
    by (intros model [= <-]; discriminate).
  split; [exact H|].
  apply (only_sentinel_is_admitted [] None 1%Q _ (initialState 0) H).
Defined.

(** What one event adds to the pending view of the positions. *)
Lemma handleEntityUpdated_positions (TILE_HASHES : list string) (account : option string)
    (sampleFactor : Q) (ev : EntityEvent) (st : AppState) :
  pending (tilePositions (handleEntityUpdated TILE_HASHES account sampleFactor ev st))
  = pending (tilePositions st)
      ++ (if Qlt_bool (random ev) sampleFactor
          then unownedPositions TILE_HASHES [ev] else []).
Proof.
  unfold handleEntityUpdated, unownedPositions. cbn [omap list_omap].
  destruct (tileModel ev) as [model|];
    [|destruct (Qlt_bool _ _); cbn; rewrite app_nil_r; reflexivity].
  destruct (parseTileModel TILE_HASHES model (Some (hashedKeys ev))) as [tile|];
    [|destruct (Qlt_bool _ _); cbn; rewrite app_nil_r; reflexivity].
  destruct (String.eqb (address tile) "0x0"), (Qlt_bool (random ev) sampleFactor),
    (bool_decide (Some (address tile) = account)); cbn;
    rewrite ?app_nil_r; reflexivity.
Qed.

(** The queue and the pending view after a feed. *)
Lemma feed_queues (TILE_HASHES : list string) (account : option string)
    (sampleFactor : Q) (evs : list EntityEvent) :
  forall st : AppState,
    let admitted :=
      unownedPositions TILE_HASHES
        (filter (fun ev => Qlt_bool (random ev) sampleFactor) evs) in
    pendingFlips (feed TILE_HASHES account sampleFactor evs st)
    = pendingFlips st ++ admitted /\
    pending (tilePositions (feed TILE_HASHES account sampleFactor evs st))
    = pending (tilePositions st) ++ admitted.
Proof.
  induction evs as [|ev evs IH]; intros st admitted; subst admitted.
  - cbn. rewrite !app_nil_r. split; reflexivity.
  - unfold feed in *. cbn [foldl].
    destruct (IH (handleEntityUpdated TILE_HASHES account sampleFactor ev st)) as [-> ->].
    rewrite handleEntityUpdated_pending, handleEntityUpdated_positions.
    rewrite filter_cons.
    destruct (Qlt_bool (random ev) sampleFactor) eqn:E.
    + rewrite decide_True by exact I.
      rewrite (unownedPositions_cons _ ev (filter _ evs)), !app_assoc. split; reflexivity.
    + rewrite decide_False by exact id.
      rewrite !app_nil_r. split; reflexivity.
Qed.

(** X8: after any feed, the pending queue and the pending view of the
    positions have grown by the same coordinates, in the order of
    arrival: those of the events that decode to an unowned tile and
    whose draw is below the sample factor. *)
Theorem feed_admits_sampled_unowned (TILE_HASHES : list string) (account : option string)
    (sampleFactor : Q) (evs : list EntityEvent) (st : AppState) :
  pendingFlips (feed TILE_HASHES account sampleFactor evs st)
  = pendingFlips st
      ++ unownedPositions TILE_HASHES
           (filter (fun ev => Qlt_bool (random ev) sampleFactor) evs) /\
  pending (tilePositions (feed TILE_HASHES account sampleFactor evs st))
  = pending (tilePositions st)
      ++ unownedPositions TILE_HASHES
           (filter (fun ev => Qlt_bool (random ev) sampleFactor) evs).
Proof. apply feed_queues. Qed.

(** ** Successful chunks *)

Lemma samePos_true (f p : Pos) : samePos f p = true <-> f = p.
Proof.
  unfold samePos. rewrite andb_true_iff, !Z.eqb_eq.
  destruct f, p; simpl. split; [intros [-> ->]; reflexivity|intros [= -> ->]; auto].
Qed.

Lemma markFlipped_pending (flips : list Pos) (prev : TilePositions) (p : Pos) :
  p ∈ pending (markFlipped flips prev) <-> p ∈ pending prev /\ p ∉ flips.
Proof.
  unfold markFlipped. cbn [pending].
  rewrite list_elem_of_filter, negb_True, Is_true_true, existsb_exists.
  split.
  - intros [Hno Hin]. split; [exact Hin|].
    intros Hp. apply Hno. exists p. split; [apply list_elem_of_In; exact Hp|].
    apply samePos_true. reflexivity.
  - intros [Hin Hno]. split; [|exact Hin].
    intros (f & Hf & Hsame). apply samePos_true in Hsame. subst f.
    apply Hno, list_elem_of_In, Hf.
Qed.

(** The filter of [markFlipped] keeps what is no coordinate of the chunk. *)
Lemma markFlipped_filter (flips : list Pos) (prev : TilePositions) :
  pending (markFlipped flips prev) = filter (fun p => p ∉ flips) (pending prev).
Proof.
  unfold markFlipped. cbn [pending]. apply list_filter_iff. intros p.
  rewrite negb_True, Is_true_true, existsb_exists. split.
  - intros Hno Hp. apply Hno. exists p. split; [apply list_elem_of_In; exact Hp|].
    apply samePos_true. reflexivity.
  - intros Hno (f & Hf & Hsame). apply samePos_true in Hsame. subst f.
    apply Hno, list_elem_of_In, Hf.
Qed.

(** X9: a chunk that went through adds its size to [totalFlips] and
    [successfulFlips], appends to the history one success record per item
    (kind [None], value 0), appends the transaction to the log (a ring
    of 10), and leaves [failedFlips], the powerup statistics and the
    pending queue as they were. *)
Theorem successful_chunk_accounting (a tx_hash : string) (flips : list Pos)
    (clk : ExecClock) (st : AppState) :
  flips <> [] ->
  let st' := executeFlips (Some a) flips (TxOk tx_hash) clk st in
  let records := mapRecords successRecord (recordTime clk) flips in
  totalFlips (metrics st') = totalFlips (metrics st) + Z.of_nat (length flips) /\
  successfulFlips (metrics st') = successfulFlips (metrics st) + Z.of_nat (length flips) /\
  failedFlips (metrics st') = failedFlips (metrics st) /\
  flipHistory (metrics st') = mostRecent 100 (flipHistory (metrics st) ++ records) /\
  length records = length flips /\
  Forall (fun rec => success rec = true /\
                     flip_powerup rec = Some (Some Powerup.None) /\
                     flip_powerupValue rec = Some (Some 0)) records /\
  txLogs st' = mostRecent 10 (txLogs st ++ [mkTxLog tx_hash (logTime clk)]) /\
  powerups (metrics st') = powerups (metrics st) /\
  pendingFlips st' = pendingFlips st /\
  entityUpdateRate st' = entityUpdateRate st /\
  lastUpdateTimestamp st' = lastUpdateTimestamp st.
Proof.
  intros Hne st' records. subst st'.
  rewrite (executeFlips_submitted a flips (TxOk tx_hash) clk st Hne).
  cbn [metrics setMetrics setTxLogs setTilePositions recordSuccess totalFlips
       successfulFlips failedFlips flipHistory powerups tilePositions pendingFlips
       txLogs entityUpdateRate lastUpdateTimestamp].
  repeat split.
  - apply (slice_from_negative _ 100). lia.
  - apply mapRecords_length.
  - apply Forall_lookup_2. intros i rec Hi.
    apply mapRecords_lookup in Hi. subst rec. repeat split.
  - apply (slice_from_negative _ 10). lia.
Qed.

Lemma successful_chunk_accounting_witness :
  sampleFlips 2 <> [] /\
  let st' := executeFlips (Some "0x1"%string) (sampleFlips 2) (TxOk "0xabc")
               (sampleClock 1000 120) (initialState 0) in
  let records := mapRecords successRecord (recordTime (sampleClock 1000 120)) (sampleFlips 2) in
  totalFlips (metrics st') = totalFlips (metrics (initialState 0)) + Z.of_nat (length (sampleFlips 2)) /\
  successfulFlips (metrics st')
  = successfulFlips (metrics (initialState 0)) + Z.of_nat (length (sampleFlips 2)) /\
  failedFlips (metrics st') = failedFlips (metrics (initialState 0)) /\
  flipHistory (metrics st') = mostRecent 100 (flipHistory (metrics (initialState 0)) ++ records) /\
  length records = length (sampleFlips 2) /\
  Forall (fun rec => success rec = true /\
                     flip_powerup rec = Some (Some Powerup.None) /\
                     flip_powerupValue rec = Some (Some 0)) records /\
  txLogs st' = mostRecent 10 (txLogs (initialState 0)
                                ++ [mkTxLog "0xabc" (logTime (sampleClock 1000 120))]) /\
  powerups (metrics st') = powerups (metrics (initialState 0)) /\
  pendingFlips st' = pendingFlips (initialState 0) /\
  entityUpdateRate st' = entityUpdateRate (initialState 0) /\
  lastUpdateTimestamp st' = lastUpdateTimestamp (initialState 0).
Proof.
  split; [discriminate|].
  apply (successful_chunk_accounting "0x1" "0xabc" (sampleFlips 2) (sampleClock 1000 120)
           (initialState 0)).
  discriminate.
Defined.

(** X10: after a chunk that went through, its coordinates are appended to
    the flipped positions, and the pending positions are the old ones
    filtered, in their order, by not being a coordinate of the chunk:
    every occurrence of a coordinate of the chunk is gone and every
    other entry, duplicates included, is kept. *)
Theorem successful_chunk_positions (a tx_hash : string) (flips : list Pos)
    (clk : ExecClock) (st : AppState) :
  flips <> [] ->
  let st' := executeFlips (Some a) flips (TxOk tx_hash) clk st in
  flipped (tilePositions st') = flipped (tilePositions st) ++ flips /\
  pending (tilePositions st') = filter (fun p => p ∉ flips) (pending (tilePositions st)) /\
  pending (tilePositions st') `sublist_of` pending (tilePositions st) /\
  (forall p : Pos,
      p ∈ pending (tilePositions st') <-> p ∈ pending (tilePositions st) /\ p ∉ flips).
Proof.
  intros Hne st'. subst st'.
  rewrite (executeFlips_submitted a flips (TxOk tx_hash) clk st Hne).
  cbn [tilePositions setTilePositions setMetrics setTxLogs].
  split; [reflexivity|]. split; [apply markFlipped_filter|].
  split; [apply sublist_filter|].
  intros p. apply markFlipped_pending.
Qed.

Lemma successful_chunk_positions_witness :
  sampleFlips 2 <> [] /\
  let st' := executeFlips (Some "0x1"%string) (sampleFlips 2) (TxOk "0xabc")
               (sampleClock 1000 120)
               (setTilePositions (fun _ => mkTilePositions (sampleFlips 3) [])
                  (initialState 0)) in
  flipped (tilePositions st')
  = flipped (tilePositions (setTilePositions (fun _ => mkTilePositions (sampleFlips 3) [])
                              (initialState 0))) ++ sampleFlips 2 /\
  pending (tilePositions st')
  = filter (fun p => p ∉ sampleFlips 2)
      (pending (tilePositions (setTilePositions (fun _ => mkTilePositions (sampleFlips 3) [])
                                 (initialState 0)))) /\
  pending (tilePositions st')
    `sublist_of` pending (tilePositions
                            (setTilePositions (fun _ => mkTilePositions (sampleFlips 3) [])
                               (initialState 0))) /\
  (forall p : Pos,
      p ∈ pending (tilePositions st')
      <-> p ∈ pending (tilePositions
                         (setTilePositions (fun _ => mkTilePositions (sampleFlips 3) [])
                            (initialState 0))) /\ p ∉ sampleFlips 2).
Proof.
  split; [discriminate|].
  apply (successful_chunk_positions "0x1" "0xabc" (sampleFlips 2) (sampleClock 1000 120)
           (setTilePositions (fun _ => mkTilePositions (sampleFlips 3) []) (initialState 0))).
  discriminate.
Defined.

(** Duplicates of a coordinate outside the chunk stay. *)
Example positions_keep_other_duplicates :
  pending (tilePositions
             (executeFlips (Some "0x1"%string) [mkPos 9 9] (TxOk "0xabc")
                (sampleClock 1000 120)
                (setTilePositions
                   (fun _ => mkTilePositions [mkPos 1 1; mkPos 1 1; mkPos 9 9] [])
                   (initialState 0))))
  = [mkPos 1 1; mkPos 1 1].
Proof. reflexivity. Qed.

Example positions_after_chunk :
  tilePositions
    (executeFlips (Some "0x1"%string) (sampleFlips 2) (TxOk "0xabc") (sampleClock 1000 120)
       (setTilePositions (fun _ => mkTilePositions (sampleFlips 3 ++ sampleFlips 1) [])
          (initialState 0)))
  = mkTilePositions [mkPos 2 2] (sampleFlips 2).
Proof. reflexivity. Qed.

(** ** Invariants of the runs *)

Lemma run_invariant (TILE_HASHES : list string) (P : AppState -> Prop) (st0 : AppState) :
  P st0 ->
  (forall st log st', step TILE_HASHES st log st' -> P st -> P st') ->
  forall log st, run TILE_HASHES st0 log st -> P st.
Proof.
  intros H0 Hstep log st Hrun.
  induction Hrun as [|log1 st1 log2 st2 _ IH Hs]; [exact H0|].
  exact (Hstep _ _ _ Hs IH).
Qed.

Lemma drainPending_state (fuel : nat) (chunkSize executionDelay : Z)
    (st st' : AppState) (calls : list Dispatch) :
  drainPending fuel chunkSize executionDelay st = Some (calls, st') ->
  st' = setPendingFlips (fun _ => []) st.
Proof.
  unfold drainPending.
  destruct (Z.eqb_spec (Z.of_nat (length (pendingFlips st))) 0) as [Hempty|_].
  - intros [= _ <-]. destruct st as [q ? ? ? ? ?]; simpl in *.
    destruct q; [reflexivity|simpl in Hempty; lia].
  - destruct (chunkLoop fuel chunkSize (pendingFlips st) 0 []); [|discriminate].
    cbn. intros [= _ <-]. reflexivity.
Qed.

(** What a transition does to the metrics. *)
Lemma step_metrics (TILE_HASHES : list string) (st st' : AppState) (log : list FlipRecord) :
  step TILE_HASHES st log st' ->
  metrics st' = metrics st \/
  (exists tile now, metrics st' = recordOwnFlip tile now (metrics st)) \/
  (exists flips clk, flips <> [] /\ metrics st' = recordSuccess flips clk (metrics st)) \/
  (exists flips clk, flips <> [] /\ metrics st' = recordFailure flips clk (metrics st)).
Proof.
  intros [account sampleFactor ev|account flips res clk|now
         |fuel chunkSize executionDelay calls st'' Hdrain].
  - destruct (handleEntityUpdated_metrics TILE_HASHES account sampleFactor ev st)
      as [->|[tile ->]]; [left; reflexivity|right; left; eauto].
  - destruct account as [a|]; [|left; reflexivity].
    destruct flips as [|p flips]; [left; reflexivity|].
    rewrite executeFlips_submitted by discriminate.
    destruct res; right; right; [left|right];
      exists (p :: flips), clk; (split; [discriminate|reflexivity]).
  - left. unfold rateTick. destruct (0 <? now - lastUpdateTimestamp st); reflexivity.
  - left. rewrite (drainPending_state _ _ _ _ _ _ Hdrain). reflexivity.
Qed.

(** What a transition does to the transaction log. *)
Lemma step_txLogs (TILE_HASHES : list string) (st st' : AppState) (log : list FlipRecord) :
  step TILE_HASHES st log st' ->
  txLogs st' = txLogs st \/
  exists entry, txLogs st' = mostRecent 10 (txLogs st ++ [entry]).
Proof.
  intros [account sampleFactor ev|account flips res clk|now
         |fuel chunkSize executionDelay calls st'' Hdrain].
  - left. apply handleEntityUpdated_rest.
  - destruct account as [a|]; [|left; reflexivity].
    destruct flips as [|p flips]; [left; reflexivity|].
    rewrite executeFlips_submitted by discriminate.
    destruct res as [tx_hash|]; [right|left; reflexivity].
    exists (mkTxLog tx_hash (logTime clk)).
    cbn [txLogs setTilePositions setMetrics setTxLogs].
    apply (slice_from_negative _ 10). lia.
  - left. unfold rateTick. destruct (0 <? now - lastUpdateTimestamp st); reflexivity.
  - left. rewrite (drainPending_state _ _ _ _ _ _ Hdrain). reflexivity.
Qed.

(** What a transition does to the rate ring. *)
Lemma step_rate (TILE_HASHES : list string) (st st' : AppState) (log : list FlipRecord) :
  step TILE_HASHES st log st' ->
  entityUpdateRate st' = entityUpdateRate st \/
  exists timeDiff,
    0 < timeDiff /\
    entityUpdateRate st'
    = mostRecent 30 (entityUpdateRate st ++ [(inject_Z 1000 / inject_Z timeDiff)%Q]).
Proof.
  intros [account sampleFactor ev|account flips res clk|now
         |fuel chunkSize executionDelay calls st'' Hdrain].
  - left. apply handleEntityUpdated_rest.
  - left. unfold executeFlips.
    destruct (bool_decide (account = None) || (Z.of_nat (length flips) =? 0));
      [reflexivity|]. destruct res; reflexivity.
  - unfold rateTick.
    destruct (Z.ltb_spec 0 (now - lastUpdateTimestamp st)) as [Hpos|_]; [|left; reflexivity].
    right. exists (now - lastUpdateTimestamp st). split; [exact Hpos|].
    cbn [entityUpdateRate setLastUpdateTimestamp setEntityUpdateRate].
    rewrite mostRecent_snoc.
    rewrite <- (slice_from_negative (entityUpdateRate st) 29) by lia. reflexivity.
  - left. rewrite (drainPending_state _ _ _ _ _ _ Hdrain). reflexivity.
Qed.

(** A run of six chunks, for the witnesses. *)
Lemma sample_run :
  run [] (initialState 0) ([] ++ chunkLog (Some "0x1"%string) sampleChunks)
    (executeAll (Some "0x1"%string) sampleChunks (initialState 0)).
Proof. apply run_executeAll. apply run_done. Qed.

(** X11: along every run from the initial state, [totalFlips] is the sum
    of [successfulFlips] and [failedFlips], and neither is negative. *)
Theorem counters_add_up (TILE_HASHES : list string) (now : Z)
    (log : list FlipRecord) (st : AppState) :
  run TILE_HASHES (initialState now) log st ->
  totalFlips (metrics st) = successfulFlips (metrics st) + failedFlips (metrics st) /\
  0 <= successfulFlips (metrics st) /\
  0 <= failedFlips (metrics st).
Proof.
  apply (run_invariant TILE_HASHES
           (fun st => totalFlips (metrics st)
                      = successfulFlips (metrics st) + failedFlips (metrics st) /\
                      0 <= successfulFlips (metrics st) /\
                      0 <= failedFlips (metrics st))).
  - cbn. lia.
  - intros st0 log0 st' Hstep (Hsum & Hs & Hf).
    destruct (step_metrics _ _ _ _ Hstep)
      as [->|[(tile & t & ->)|[(flips & clk & _ & ->)|(flips & clk & _ & ->)]]];
      cbn [recordOwnFlip recordSuccess recordFailure totalFlips successfulFlips failedFlips];
      lia.
Qed.

Lemma counters_add_up_witness :
  run [] (initialState 0) ([] ++ chunkLog (Some "0x1"%string) sampleChunks)
    (executeAll (Some "0x1"%string) sampleChunks (initialState 0)) /\
  totalFlips (metrics (executeAll (Some "0x1"%string) sampleChunks (initialState 0)))
  = successfulFlips (metrics (executeAll (Some "0x1"%string) sampleChunks (initialState 0)))
    + failedFlips (metrics (executeAll (Some "0x1"%string) sampleChunks (initialState 0))) /\
  0 <= successfulFlips (metrics (executeAll (Some "0x1"%string) sampleChunks (initialState 0))) /\
  0 <= failedFlips (metrics (executeAll (Some "0x1"%string) sampleChunks (initialState 0))).
Proof.
  split; [exact sample_run|].
  apply (counters_add_up [] 0 _ _ sample_run).
Defined.

(** X12: along every run from the initial state, the statistics of every
    powerup kind count as many updates as they hold values, and those of
    the kind [None] stay empty. *)
Theorem powerup_counts_match_values (TILE_HASHES : list string) (now : Z)
    (log : list FlipRecord) (st : AppState) :
  run TILE_HASHES (initialState now) log st ->
  (forall (kind : option Z) (stats : PowerupStats),
      powerups (metrics st) !! kind = Some stats ->
      count stats = Z.of_nat (length (values stats))) /\
  powerups (metrics st) !! Some Powerup.None = Some (mkPowerupStats 0 []).
Proof.
  apply (run_invariant TILE_HASHES
           (fun st =>
              (forall (kind : option Z) (stats : PowerupStats),
                  powerups (metrics st) !! kind = Some stats ->
                  count stats = Z.of_nat (length (values stats))) /\
              powerups (metrics st) !! Some Powerup.None = Some (mkPowerupStats 0 []))).
  - split; [|reflexivity].
    intros kind stats. unfold initialState, initialMetrics. cbn [metrics powerups].
    rewrite !lookup_insert.
    repeat case_decide; first [intros [= <-]; reflexivity | rewrite lookup_empty; discriminate].
  - intros st0 log0 st' Hstep [Hall Hnone].
    destruct (step_metrics _ _ _ _ Hstep)
      as [->|[(tile & t & ->)|[(flips & clk & _ & ->)|(flips & clk & _ & ->)]]];
      cbn [recordOwnFlip recordSuccess recordFailure powerups]; try (split; assumption).
    case_bool_decide as Hkind; [|split; assumption].
    split.
    + intros kind stats. rewrite lookup_insert. case_decide as Hk; [|apply Hall].
      intros [= <-]. cbn [count values]. rewrite length_app. cbn [length].
      destruct (powerups (metrics st0) !! powerup tile) as [old|] eqn:Hold; cbn.
      * rewrite (Hall _ _ Hold). lia.
      * reflexivity.
    + rewrite lookup_insert_ne by exact Hkind. exact Hnone.
Qed.

Lemma powerup_counts_match_values_witness :
  run [] (initialState 0) ([] ++ ownRecords [] (Some "0x1"%string) sampleOwnEvent)
    (handleEntityUpdated [] (Some "0x1"%string) 1%Q sampleOwnEvent (initialState 0)) /\
  (forall (kind : option Z) (stats : PowerupStats),
      powerups (metrics (handleEntityUpdated [] (Some "0x1"%string) 1%Q sampleOwnEvent
                           (initialState 0)))
        !! kind = Some stats ->
      count stats = Z.of_nat (length (values stats))) /\
  powerups (metrics (handleEntityUpdated [] (Some "0x1"%string) 1%Q sampleOwnEvent
                       (initialState 0)))
    !! Some Powerup.None = Some (mkPowerupStats 0 []).
Proof.
  assert (run [] (initialState 0) ([] ++ ownRecords [] (Some "0x1"%string) sampleOwnEvent)
            (handleEntityUpdated [] (Some "0x1"%string) 1%Q sampleOwnEvent (initialState 0)))
    as Hrun by (eapply run_more; [apply run_done|apply step_entity]).
  split; [exact Hrun|].
  apply (powerup_counts_match_values [] 0 _ _ Hrun).
Defined.

Example own_tile_statistics :
  powerups (metrics (handleEntityUpdated [] (Some "0x1"%string) 1%Q sampleOwnEvent
                       (initialState 0)))
    !! Some Powerup.Multiplier = Some (mkPowerupStats 1 [Some 43]) /\
  flipHistory (metrics (handleEntityUpdated [] (Some "0x1"%string) 1%Q sampleOwnEvent
                          (initialState 0)))
  = [mkFlipRecord 11 true (Some (Some 1)) (Some (Some 43))] /\
  pendingFlips (handleEntityUpdated [] (Some "0x1"%string) 1%Q sampleOwnEvent
                  (initialState 0)) = [].
Proof. vm_compute. auto. Qed.

(** X13: along every run from the initial state, the transaction log holds
    at most 10 entries. *)
Theorem transaction_log_is_bounded (TILE_HASHES : list string) (now : Z)
    (log : list FlipRecord) (st : AppState) :
  run TILE_HASHES (initialState now) log st ->
  (length (txLogs st) <= 10)%nat.
Proof.
  apply (run_invariant TILE_HASHES (fun st => (length (txLogs st) <= 10)%nat)).
  - cbn. lia.
  - intros st0 log0 st' Hstep Hlen.
    destruct (step_txLogs _ _ _ _ Hstep) as [->|[entry ->]];
      [exact Hlen|apply mostRecent_length].
Qed.

Lemma transaction_log_is_bounded_witness :
  run [] (initialState 0) ([] ++ chunkLog (Some "0x1"%string) sampleChunks)
    (executeAll (Some "0x1"%string) sampleChunks (initialState 0)) /\
  (length (txLogs (executeAll (Some "0x1"%string) sampleChunks (initialState 0))) <= 10)%nat.
Proof.
  split; [exact sample_run|].
  apply (transaction_log_is_bounded [] 0 _ _ sample_run).
Defined.

Lemma rate_sample_range (timeDiff : Z) :
  0 < timeDiff ->
  (0 < inject_Z 1000 / inject_Z timeDiff)%Q /\
  (inject_Z 1000 / inject_Z timeDiff <= inject_Z 1000)%Q.
Proof.
  intros Hpos. destruct timeDiff as [|p|p]; try lia.
  unfold Qlt, Qle, Qdiv, Qmult, Qinv, inject_Z. simpl. lia.
Qed.

Lemma Forall_mostRecent {A : Type} (P : A -> Prop) (n : nat) (l : list A) :
  Forall P l -> Forall P (mostRecent n l).
Proof. unfold mostRecent. apply Forall_drop. Qed.

(** X14: along every run from the initial state, the rate ring holds at
    most 30 samples, each of them positive and at most 1000. *)
Theorem rate_ring_is_bounded (TILE_HASHES : list string) (now : Z)
    (log : list FlipRecord) (st : AppState) :
  run TILE_HASHES (initialState now) log st ->
  (length (entityUpdateRate st) <= 30)%nat /\
  Forall (fun rate => (0 < rate)%Q /\ (rate <= inject_Z 1000)%Q) (entityUpdateRate st).
Proof.
  apply (run_invariant TILE_HASHES
           (fun st =>
              (length (entityUpdateRate st) <= 30)%nat /\
              Forall (fun rate => (0 < rate)%Q /\ (rate <= inject_Z 1000)%Q)
                     (entityUpdateRate st))).
  - split; [cbn; lia|constructor].
  - intros st0 log0 st' Hstep [Hlen Hall].
    destruct (step_rate _ _ _ _ Hstep) as [->|(timeDiff & Hpos & ->)];
      [split; assumption|].
    split; [apply mostRecent_length|].
    apply Forall_mostRecent, Forall_app. split; [exact Hall|].
    constructor; [apply rate_sample_range; exact Hpos|constructor].
Qed.

Lemma rate_ring_is_bounded_witness :
  run [] (initialState 1000) (([] ++ []) ++ [])
    (rateTick 2700 (rateTick 1500 (initialState 1000))) /\
  (length (entityUpdateRate (rateTick 2700 (rateTick 1500 (initialState 1000)))) <= 30)%nat /\
  Forall (fun rate => (0 < rate)%Q /\ (rate <= inject_Z 1000)%Q)
         (entityUpdateRate (rateTick 2700 (rateTick 1500 (initialState 1000)))).
Proof.
  assert (run [] (initialState 1000) (([] ++ []) ++ [])
            (rateTick 2700 (rateTick 1500 (initialState 1000)))) as Hrun
    by (eapply run_more; [eapply run_more; [apply run_done|apply step_tick]|apply step_tick]).
  split; [exact Hrun|].
  apply (rate_ring_is_bounded [] 1000 _ _ Hrun).
Defined.

Example rate_ring_after_two_ticks :
  entityUpdateRate (rateTick 2700 (rateTick 1500 (initialState 1000)))
  = [(1000 # 500)%Q; (1000 # 1200)%Q].
Proof. reflexivity. Qed.

(** X15: a second tick at the same reading of the clock changes nothing. *)
Theorem rateTick_same_instant (now : Z) (st : AppState) :
  rateTick now (rateTick now st) = rateTick now st.
Proof.
  unfold rateTick at 1.
  replace (lastUpdateTimestamp (rateTick now st)) with now by reflexivity.
  rewrite Z.sub_diag. cbn [Z.ltb Z.compare].
  unfold rateTick. destruct (0 <? now - lastUpdateTimestamp st); reflexivity.
Qed.

(** ** The graphs *)

Lemma slice_range {A : Type} (l : list A) (a b : Z) :
  0 <= a <= b -> b <= Z.of_nat (length l) ->
  JS.slice l a b = take (Z.to_nat (b - a)) (drop (Z.to_nat a) l).
Proof.
  intros Hab Hb. unfold JS.slice.
  destruct (Z.ltb_spec a 0) as [?|_]; [lia|].
  destruct (Z.ltb_spec b 0) as [?|_]; [lia|].
  f_equal; [|f_equal]; lia.
Qed.

(** The [reduce] of the success-rate graph in closed form. *)
Lemma successRate_fold {A : Type} (g : nat -> A) (n : nat) :
  forall (a : nat) (acc : list A),
    foldl (fun acc idx => if Z.of_nat idx <? 10 then acc else acc ++ [g idx]) acc (seq a n)
    = acc ++ (g <$> seq (a `max` 10) (n - (10 - a))).
Proof.
  induction n as [|n IH]; intros a acc.
  - cbn. rewrite app_nil_r. reflexivity.
  - cbn [seq foldl]. rewrite IH.
    destruct (Z.ltb_spec (Z.of_nat a) 10) as [Hlt|Hge].
    + replace (S a `max` 10)%nat with (a `max` 10)%nat by lia.
      replace (n - (10 - S a))%nat with (S n - (10 - a))%nat by lia.
      reflexivity.
    + rewrite <- app_assoc. f_equal.
      replace (S n - (10 - a))%nat with (S (n - (10 - S a)))%nat by lia.
      replace (a `max` 10)%nat with a by lia.
      replace (S a `max` 10)%nat with (S a) by lia.
      reflexivity.
Qed.

(** X16: the success-rate graph of a history of [n] records has
    [n - 10] bars (none up to 10 records); bar [j] is the share of
    successes among the ten records at indices [j + 1] to [j + 10], a
    value between 0 and 1. *)
Theorem successRate_bars (history : list FlipRecord) :
  length (successRate history) = (length history - 10)%nat /\
  (forall j : nat,
      (j + 10 < length history)%nat ->
      successRate history !! j
      = Some (inject_Z (Z.of_nat (length (filter (fun f => success f = true)
                                                  (take 10 (drop (S j) history)))))
              / inject_Z 10)%Q) /\
  Forall (fun rate => (0 <= rate)%Q /\ (rate <= 1)%Q) (successRate history).
Proof.
  unfold successRate. rewrite successRate_fold. cbn [app].
  replace (0 `max` 10)%nat with 10%nat by reflexivity.
  replace (length history - (10 - 0))%nat with (length history - 10)%nat by lia.
  split; [rewrite length_fmap, length_seq; reflexivity|]. split.
  - intros j Hj. rewrite list_lookup_fmap, lookup_seq_lt by lia. cbn [fmap option_fmap option_map].
    rewrite slice_range by lia.
    replace (Z.to_nat (Z.of_nat (10 + j) + 1 - (Z.of_nat (10 + j) - 9))) with 10%nat by lia.
    replace (Z.to_nat (Z.of_nat (10 + j) - 9)) with (S j) by lia.
    reflexivity.
  - apply Forall_fmap, Forall_forall. intros idx Hidx.
    apply elem_of_seq in Hidx. cbn [compose].
    rewrite slice_range by lia.
    set (window := take _ _).
    assert (length (filter (fun f => success f = true) window) <= 10)%nat as Hlen.
    { etransitivity; [apply length_filter|]. subst window. rewrite length_take. lia. }
    unfold Qle, Qdiv, Qmult, Qinv, inject_Z. simpl. lia.
Qed.

Example successRate_of_twelve :
  successRate (mapRecords failureRecord (fun _ => 0) (sampleFlips 10)
                 ++ mapRecords successRecord (fun _ => 0) (sampleFlips 2))
  = [(1 # 10)%Q; (2 # 10)%Q] /\
  successRate (mapRecords successRecord (fun _ => 0) (sampleFlips 10)) = [].
Proof. vm_compute. auto. Qed.

(** What a transition does to the flip history. *)
Lemma step_history_records (TILE_HASHES : list string) (st st' : AppState)
    (log : list FlipRecord) :
  step TILE_HASHES st log st' ->
  flipHistory (metrics st') = flipHistory (metrics st) \/
  exists records,
    flipHistory (metrics st') = mostRecent 100 (flipHistory (metrics st) ++ records) /\
    Forall (fun rec => success rec = true \/ flip_powerup rec = None) records.
Proof.
  intros Hstep.
  destruct (step_metrics _ _ _ _ Hstep)
    as [->|[(tile & t & ->)|[(flips & clk & _ & ->)|(flips & clk & _ & ->)]]];
    [left; reflexivity|right..];
    cbn [recordOwnFlip recordSuccess recordFailure flipHistory];
    eexists; (split; [apply (slice_from_negative _ 100); lia|]).
  - constructor; [left; reflexivity|constructor].
  - apply Forall_lookup_2. intros i rec Hi.
    apply mapRecords_lookup in Hi. subst rec. left. reflexivity.
  - apply Forall_lookup_2. intros i rec Hi.
    apply mapRecords_lookup in Hi. subst rec. right. reflexivity.
Qed.

(** X17: along every run from the initial state, the powerup graph shows
    at most 30 records, all of them successes carrying a powerup other
    than [None]: the failed chunks never appear in it. *)
Theorem powerupHistory_shows_successes (TILE_HASHES : list string) (now : Z)
    (log : list FlipRecord) (st : AppState) :
  run TILE_HASHES (initialState now) log st ->
  (length (powerupHistory (flipHistory (metrics st))) <= 30)%nat /\
  Forall (fun rec => success rec = true /\
                     flip_powerup rec <> None /\
                     flip_powerup rec <> Some (Some Powerup.None))
         (powerupHistory (flipHistory (metrics st))).
Proof.
  intros Hrun.
  assert (Forall (fun rec => success rec = true \/ flip_powerup rec = None)
                 (flipHistory (metrics st))) as Hinv.
  { revert log st Hrun.
    apply (run_invariant TILE_HASHES
             (fun st => Forall (fun rec => success rec = true \/ flip_powerup rec = None)
                               (flipHistory (metrics st)))).
    - constructor.
    - intros st0 log0 st' Hstep Hall.
      destruct (step_history_records _ _ _ _ Hstep) as [->|(records & -> & Hrec)];
        [exact Hall|].
      apply Forall_mostRecent, Forall_app. split; assumption. }
  unfold powerupHistory. rewrite (slice_from_negative _ 30) by lia.
  split; [apply mostRecent_length|].
  apply Forall_mostRecent, Forall_forall. intros rec Hrec.
  apply list_elem_of_filter in Hrec as [[Hsome Hkind] Hin].
  rewrite Forall_forall in Hinv. destruct (Hinv rec Hin) as [Hs|Hn]; [|contradiction].
  repeat split; assumption.
Qed.

Lemma powerupHistory_shows_successes_witness :
  run [] (initialState 0) ([] ++ ownRecords [] (Some "0x1"%string) sampleOwnEvent)
    (handleEntityUpdated [] (Some "0x1"%string) 1%Q sampleOwnEvent (initialState 0)) /\
  (length (powerupHistory
             (flipHistory (metrics (handleEntityUpdated [] (Some "0x1"%string) 1%Q
                                      sampleOwnEvent (initialState 0))))) <= 30)%nat /\
  Forall (fun rec => success rec = true /\
                     flip_powerup rec <> None /\
                     flip_powerup rec <> Some (Some Powerup.None))
         (powerupHistory
            (flipHistory (metrics (handleEntityUpdated [] (Some "0x1"%string) 1%Q
                                     sampleOwnEvent (initialState 0))))).
Proof.
  assert (run [] (initialState 0) ([] ++ ownRecords [] (Some "0x1"%string) sampleOwnEvent)
            (handleEntityUpdated [] (Some "0x1"%string) 1%Q sampleOwnEvent (initialState 0)))
    as Hrun by (eapply run_more; [apply run_done|apply step_entity]).
  split; [exact Hrun|].
  apply (powerupHistory_shows_successes [] 0 _ _ Hrun).
Defined.

(** ** More on the drain *)

Lemma chunkLoop_extends (chunkSize : Z) (l : list Pos) :
  forall (fuel : nat) (i : Z) (chunks result : list (list Pos)),
    chunkLoop fuel chunkSize l i chunks = Some result ->
    exists rest, result = chunks ++ rest.
Proof.
  induction fuel as [|fuel IH]; intros i chunks result; [discriminate|].
  cbn [chunkLoop]. destruct (i <? Z.of_nat (length l)).
  - intros H. apply IH in H as [rest ->]. rewrite <- app_assoc. eauto.
  - intros [= <-]. exists []. rewrite app_nil_r. reflexivity.
Qed.

(** The chunk of index [j] after index [i] is the window of the queue
    that starts at [i + j * chunkSize]. *)
Lemma chunkLoop_windows (chunkSize : Z) (l : list Pos) :
  1 <= chunkSize ->
  forall (fuel : nat) (i : Z) (chunks rest : list (list Pos)),
    0 <= i ->
    chunkLoop fuel chunkSize l i chunks = Some (chunks ++ rest) ->
    forall (j : nat) (c : list Pos),
      rest !! j = Some c ->
      c = take (Z.to_nat chunkSize) (drop (Z.to_nat (i + Z.of_nat j * chunkSize)) l) /\
      i + Z.of_nat j * chunkSize < Z.of_nat (length l).
Proof.
  intros Hk. induction fuel as [|fuel IH]; intros i chunks rest Hi; [discriminate|].
  cbn [chunkLoop]. destruct (Z.ltb_spec i (Z.of_nat (length l))) as [Hlt|Hge].
  - intros Hloop j c Hj.
    destruct (chunkLoop_extends _ _ _ _ _ _ Hloop) as [rest' Hrest].
    rewrite <- app_assoc in Hrest. apply app_inv_head in Hrest. subst rest.
    rewrite app_assoc in Hloop.
    destruct j as [|j]; cbn in Hj.
    + injection Hj as <-. rewrite slice_window by lia.
      replace (i + Z.of_nat 0 * chunkSize) with i by lia. split; [reflexivity|lia].
    + destruct (IH (i + chunkSize) _ rest' ltac:(lia) Hloop j c Hj) as [-> Hin].
      split; [f_equal; f_equal; lia|lia].
  - intros [= Hrest] j c Hj.
    assert (rest = []) as -> by (apply (app_inv_head chunks); rewrite app_nil_r; auto).
    rewrite lookup_nil in Hj. discriminate.
Qed.

(** X18: for a positive chunk size, the chunk of index [j] of a drain is
    the window of [chunkSize] candidates that starts at index
    [j * chunkSize] of the queue, and every chunk but the last is full. *)
Theorem drain_chunks_are_windows (fuel : nat) (chunkSize executionDelay : Z)
    (st : AppState) :
  1 <= chunkSize ->
  (length (pendingFlips st) < fuel)%nat ->
  exists calls,
    drainPending fuel chunkSize executionDelay st
    = Some (calls, setPendingFlips (fun _ => []) st) /\
    forall (j : nat) (call : Dispatch),
      calls !! j = Some call ->
      chunk call
      = take (Z.to_nat chunkSize)
             (drop (Z.to_nat (Z.of_nat j * chunkSize)) (pendingFlips st)) /\
      ((S j < length calls)%nat -> Z.of_nat (length (chunk call)) = chunkSize).
Proof.
  intros Hk Hfuel. unfold drainPending.
  destruct (Z.eqb_spec (Z.of_nat (length (pendingFlips st))) 0) as [Hempty|Hne].
  - exists []. split.
    + destruct st as [q ? ? ? ? ?]; simpl in *.
      destruct q; [reflexivity|simpl in Hempty; lia].
    + intros j call Hj. rewrite lookup_nil in Hj. discriminate.
  - destruct (chunkLoop_spec chunkSize (pendingFlips st) Hk fuel 0 [])
      as (chunks & Hloop & _); [lia|lia|].
    rewrite Hloop. cbn [app mbind option_bind].
    exists (schedule executionDelay chunks). split; [reflexivity|].
    intros j call Hj. apply schedule_lookup in Hj as [_ Hj].
    destruct (chunkLoop_windows chunkSize (pendingFlips st) Hk fuel 0 [] chunks
                ltac:(lia) Hloop j _ Hj) as [Hc Hin].
    rewrite Z.add_0_l in Hc, Hin. split; [exact Hc|].
    intros Hnext. unfold schedule in Hnext. rewrite length_imap in Hnext.
    destruct (lookup_lt_is_Some_2 chunks (S j) Hnext) as [c' Hc'].
    destruct (chunkLoop_windows chunkSize (pendingFlips st) Hk fuel 0 [] chunks
                ltac:(lia) Hloop (S j) _ Hc') as [_ Hin'].
    rewrite Hc, length_take, length_drop. lia.
Qed.

Lemma drain_chunks_are_windows_witness :
  1 <= 10 /\
  (length (pendingFlips (setPendingFlips (fun _ => sampleFlips 25) (initialState 0))) < 26)%nat /\
  exists calls,
    drainPending 26 10 100 (setPendingFlips (fun _ => sampleFlips 25) (initialState 0))
    = Some (calls,
            setPendingFlips (fun _ => [])
              (setPendingFlips (fun _ => sampleFlips 25) (initialState 0))) /\
    forall (j : nat) (call : Dispatch),
      calls !! j = Some call ->
      chunk call
      = take (Z.to_nat 10)
             (drop (Z.to_nat (Z.of_nat j * 10))
                (pendingFlips (setPendingFlips (fun _ => sampleFlips 25) (initialState 0)))) /\
      ((S j < length calls)%nat -> Z.of_nat (length (chunk call)) = 10).
Proof.
  split; [lia|]. split; [vm_compute; lia|].
  apply (drain_chunks_are_windows 26 10 100
           (setPendingFlips (fun _ => sampleFlips 25) (initialState 0))).
  - lia.
  - vm_compute. lia.
Defined.

Lemma chunkLoop_diverges (chunkSize : Z) (l : list Pos) :
  chunkSize <= 0 ->
  forall (fuel : nat) (i : Z) (chunks : list (list Pos)),
    i < Z.of_nat (length l) ->
    chunkLoop fuel chunkSize l i chunks = None.
Proof.
  intros Hk. induction fuel as [|fuel IH]; intros i chunks Hi; [reflexivity|].
  cbn [chunkLoop]. destruct (Z.ltb_spec i (Z.of_nat (length l))) as [_|?]; [|lia].
  apply IH. lia.
Qed.

(** X19: with a chunk size of zero or less and a queue that is not empty,
    the loop of the drain never ends: no amount of fuel gives a result. *)
Theorem drain_needs_positive_chunk_size (fuel : nat) (chunkSize executionDelay : Z)
    (st : AppState) :
  chunkSize <= 0 ->
  pendingFlips st <> [] ->
  drainPending fuel chunkSize executionDelay st = None.
Proof.
  intros Hk Hne. unfold drainPending.
  destruct (Z.eqb_spec (Z.of_nat (length (pendingFlips st))) 0) as [Hempty|Hlen].
  - destruct (pendingFlips st); [contradiction|simpl in Hempty; lia].
  - rewrite (chunkLoop_diverges chunkSize (pendingFlips st) Hk) by lia. reflexivity.
Qed.

Lemma drain_needs_positive_chunk_size_witness :
  0 <= 0 /\
  pendingFlips (setPendingFlips (fun _ => sampleFlips 1) (initialState 0)) <> [] /\
  drainPending 1000 0 100 (setPendingFlips (fun _ => sampleFlips 1) (initialState 0)) = None.
Proof.
  split; [lia|]. split; [discriminate|].
  apply (drain_needs_positive_chunk_size 1000 0 100
           (setPendingFlips (fun _ => sampleFlips 1) (initialState 0))).
  - lia.
  - discriminate.
Defined.

(** ** Sequences of chunks *)








(** Three admitted tiles in chunks of two: the second chunk completing
    first puts its coordinate first in the flipped positions. *)
Example pipeline_with_reordered_completions :
  (fun res : list Dispatch * AppState =>
     (chunk <$> fst res,
      flipped (tilePositions
                 (executeAll (Some "0x1"%string)
                    ((fun call => (chunk call, TxOk "0xabc", sampleClock 1000 120))
                       <$> reverse (fst res))
                    (snd res)))))
    <$> drainPending 4 2 100 (feed [] (Some "0x1"%string) 1%Q sampleUnownedFeed (initialState 0))
  = Some ([[mkPos 0 0; mkPos 1 1]; [mkPos 2 2]], [mkPos 2 2; mkPos 0 0; mkPos 1 1]).
Proof. vm_compute. reflexivity. Qed.

(** ** The call data *)

Lemma hex_digit_hexChar (d : Z) :
  0 <= d < 16 -> JS.hex_digit (Calldata.hexChar d) = Some d.
Proof.
  intros Hd. destruct d as [|p|p]; [reflexivity| |lia].
  do 4 (destruct p as [p|p|]; try lia; try reflexivity).
Qed.

Lemma hex_prefix_hexDigits (fuel : nat) :
  forall (n : Z) (acc : string) (o : option Z),
    0 <= n < 16 ^ Z.of_nat (S fuel) ->
    exists k : Z,
      0 < k /\
      JS.hex_prefix o (Calldata.hexDigits (S fuel) n acc)
      = JS.hex_prefix (Some (default 0 o * 16 ^ k + n)) acc.
Proof.
  induction fuel as [|fuel IH]; intros n acc o Hn.
  - exists 1. split; [lia|].
    change (16 ^ Z.of_nat 1) with 16 in Hn.
    cbn [Calldata.hexDigits]. destruct (Z.ltb_spec n 16) as [_|?]; [|lia].
    rewrite Z.mod_small by lia. cbn [JS.hex_prefix].
    rewrite hex_digit_hexChar by lia. f_equal. f_equal. lia.
  - cbn [Calldata.hexDigits]. destruct (Z.ltb_spec n 16) as [Hlt|Hge].
    + exists 1. split; [lia|].
      rewrite Z.mod_small by lia. cbn [JS.hex_prefix].
      rewrite hex_digit_hexChar by lia. f_equal. f_equal. lia.
    + assert (0 <= n / 16 < 16 ^ Z.of_nat (S fuel)) as Hdiv.
      { split; [apply Z.div_pos; lia|].
        apply Z.div_lt_upper_bound; [lia|].
        replace (16 * 16 ^ Z.of_nat (S fuel)) with (16 ^ Z.of_nat (S (S fuel)));
          [lia|].
        rewrite (Nat2Z.inj_succ (S fuel)), Z.pow_succ_r by lia. reflexivity. }
      destruct (IH (n / 16) (String (Calldata.hexChar (n mod 16)) acc) o Hdiv)
        as (k & Hk & Hparse).
      exists (k + 1). split; [lia|].
      change (Calldata.hexDigits (S fuel) (n / 16) (String (Calldata.hexChar (n mod 16)) acc))
        with (Calldata.hexDigits (S fuel) (n / 16)
                (String (Calldata.hexChar (n mod 16)) acc)) in Hparse.
      etransitivity; [exact Hparse|].
      cbn [JS.hex_prefix]. rewrite hex_digit_hexChar by (apply Z.mod_pos_bound; lia).
      cbn [default]. f_equal. f_equal.
      rewrite Z.pow_add_r, Z.pow_1_r by lia.
      pose proof (Z.div_mod n 16 ltac:(lia)) as Hdm.
      set (v := default 0 o). set (P := 16 ^ k).
      set (q := n / 16) in *. set (m := n mod 16) in *. rewrite Hdm. unfold id. ring.
Qed.

Lemma digits_fit (n : Z) : 0 <= n -> n < 16 ^ Z.of_nat (S (Z.to_nat (Z.log2 n))).
Proof.
  intros Hn. rewrite Nat2Z.inj_succ, Z2Nat.id by apply Z.log2_nonneg.
  destruct (Z.eq_dec n 0) as [->|Hne]; [reflexivity|].
  pose proof (Z.log2_spec n ltac:(lia)) as [_ Hup].
  eapply Z.lt_le_trans; [exact Hup|].
  apply Z.pow_le_mono_l. pose proof (Z.log2_nonneg n). lia.
Qed.

(** Hexadecimal call data of a number that is not negative parses back
    to the number. *)
Lemma parseInt16_toString16 (n : Z) :
  0 <= n -> JS.parseInt16 ("0x" +:+ Calldata.toString16 n) = Some n.
Proof.
  intros Hn. unfold Calldata.toString16.
  destruct (Z.ltb_spec n 0) as [?|_]; [lia|].
  change (JS.parseInt16 ("0x" +:+ ?s)) with (Z.mul 1 <$> JS.hex_prefix None s).
  rewrite fmap_mul_1.
  destruct (hex_prefix_hexDigits (Z.to_nat (Z.log2 n)) n "" None (conj Hn (digits_fit n Hn)))
    as (k & _ & ->).
  cbn. reflexivity.
Qed.

Lemma floor_of_draw (r : Q) :
  (0 <= r)%Q -> (r < 1)%Q -> 0 <= Qfloor (r * 6) <= 5.
Proof.
  intros Hlo Hhi. split.
  - change 0 with (Qfloor 0). apply Qfloor_resp_le.
    apply Qmult_le_0_compat; [exact Hlo|discriminate].
  - enough (Qfloor (r * 6) < 6) by lia.
    rewrite Zlt_Qlt. eapply Qle_lt_trans; [apply Qfloor_le|].
    change (inject_Z 6) with (1 * 6)%Q.
    apply Qmult_lt_compat_r; [reflexivity|exact Hhi].
Qed.

(** X22: the call data of a chunk.  For draws in [0, 1) and coordinates
    that are not negative, [account.execute] gets one call of the
    entry point [flip] per coordinate, in order, whose three arguments
    parse back, as hexadecimal numbers, to the [x] and the [y] of the
    coordinate and to a team between 0 and 5. *)
Theorem flipCalls_encode_coordinates (ACTIONS_ADDRESS : string) (draw : nat -> Q)
    (flips : list Pos) :
  (forall i, (0 <= draw i)%Q /\ (draw i < 1)%Q) ->
  Forall (fun flip => 0 <= pos_x flip /\ 0 <= pos_y flip) flips ->
  length (Calldata.flipCalls ACTIONS_ADDRESS draw flips) = length flips /\
  forall (i : nat) (flip : Pos),
    flips !! i = Some flip ->
    exists call team,
      Calldata.flipCalls ACTIONS_ADDRESS draw flips !! i = Some call /\
      Calldata.contractAddress call = ACTIONS_ADDRESS /\
      Calldata.entrypoint call = "flip"%string /\
      JS.parseInt16 <$> Calldata.calldata call
      = [Some (pos_x flip); Some (pos_y flip); Some team] /\
      0 <= team <= 5.
Proof.
  intros Hdraw Hpos. unfold Calldata.flipCalls. split; [apply length_imap|].
  intros i flip Hi. rewrite list_lookup_imap, Hi. cbn [fmap option_fmap option_map].
  eexists _, (Qfloor (draw i * 6)). split; [reflexivity|].
  cbn [Calldata.contractAddress Calldata.entrypoint Calldata.calldata].
  split; [reflexivity|]. split; [reflexivity|].
  destruct (Hdraw i) as [Hlo Hhi]. pose proof (floor_of_draw _ Hlo Hhi) as Hteam.
  destruct (Forall_lookup_1 _ _ _ _ Hpos Hi) as [Hx Hy].
  split; [|exact Hteam].
  cbn [fmap list_fmap].
  rewrite !parseInt16_toString16 by lia. reflexivity.
Qed.

Lemma flipCalls_encode_coordinates_witness :
  (forall i : nat, (0 <= (fun _ : nat => (1 # 2)%Q) i)%Q /\ ((fun _ : nat => (1 # 2)%Q) i < 1)%Q) /\
  Forall (fun flip => 0 <= pos_x flip /\ 0 <= pos_y flip) (sampleFlips 3) /\
  length (Calldata.flipCalls "0xac" (fun _ => (1 # 2)%Q) (sampleFlips 3))
  = length (sampleFlips 3) /\
  forall (i : nat) (flip : Pos),
    sampleFlips 3 !! i = Some flip ->
    exists call team,
      Calldata.flipCalls "0xac" (fun _ => (1 # 2)%Q) (sampleFlips 3) !! i = Some call /\
      Calldata.contractAddress call = "0xac"%string /\
      Calldata.entrypoint call = "flip"%string /\
      JS.parseInt16 <$> Calldata.calldata call
      = [Some (pos_x flip); Some (pos_y flip); Some team] /\
      0 <= team <= 5.
Proof.
  assert (forall i : nat,
             (0 <= (fun _ : nat => (1 # 2)%Q) i)%Q /\ ((fun _ : nat => (1 # 2)%Q) i < 1)%Q) as Hd
    by (intros i; split; [discriminate|reflexivity]).
  assert (Forall (fun flip => 0 <= pos_x flip /\ 0 <= pos_y flip) (sampleFlips 3)) as Hp
    by (repeat (apply Forall_cons; split; [simpl; lia|]); apply Forall_nil; exact I).
  split; [exact Hd|]. split; [exact Hp|].
  apply (flipCalls_encode_coordinates "0xac" (fun _ => (1 # 2)%Q) (sampleFlips 3) Hd Hp).
Defined.

Example flipCalls_of_two :
  Calldata.calldata <$> Calldata.flipCalls "0xac" (fun _ => (1 # 2)%Q) [mkPos 255 16; mkPos 0 4095]
  = [["0xff"; "0x10"; "0x3"]; ["0x0"; "0xfff"; "0x3"]]%string.
Proof. vm_compute. reflexivity. Qed.

(** X23: a negative coordinate, such as the -1 that the decoder gives for
    a key outside the table, is sent as ["0x-..."], which does not parse
    as a hexadecimal number. *)
Theorem negative_coordinate_is_not_a_number (n : Z) :
  n < 0 ->
  exists digits,
    "0x" +:+ Calldata.toString16 n = "0x-" +:+ digits /\
    JS.parseInt16 ("0x" +:+ Calldata.toString16 n) = None.
Proof.
  intros Hn. unfold Calldata.toString16.
  destruct (Z.ltb_spec n 0) as [_|?]; [|lia].
  eexists. split; reflexivity.
Qed.

Lemma negative_coordinate_is_not_a_number_witness :
  -1 < 0 /\
  exists digits,
    "0x" +:+ Calldata.toString16 (-1) = "0x-" +:+ digits /\
    JS.parseInt16 ("0x" +:+ Calldata.toString16 (-1)) = None.
Proof.
  split; [lia|]. apply (negative_coordinate_is_not_a_number (-1)). lia.
Defined.
